(** * The agentic RAG workflow of the product assistant

    Shallow embedding of [src/prod_assistant/workflow/agentic_rag_workflow_archive.py]
    (class [AgenticRAG]) and of the part of [retriever/retrieval.py] it calls.

    Conventions of the embedding.
    - A Python [str] is a [string]; its characters are the code points
      0..255.  This range is closed under [str.lower] and [str.strip], the
      two string methods the workflow uses, and both are modelled exactly
      on it.
    - The language model and the vector-store retriever are external: they
      are fields of a [Collaborators] record.  Each is a function of the
      history of effects so far, so that any sequence of answers can be
      represented; [None] stands for a raised exception.
    - Effects ([print], collaborator calls, the checkpoint store of the
      LangGraph [MemorySaver]) are threaded by the monad [M].
    - A node of the LangGraph [StateGraph] is a constructor of [Node]; the
      spec's states map to them as follows: Routing = [Assistant],
      Retrieving = [Retriever], Grading = the conditional edge leaving
      [Retriever] ([_grade_documents]), Generating = [Generator],
      Rewriting = [Rewriter], Done = [END]. *)

From Stdlib Require Import Ascii.
From Stdlib Require String DecimalString.
From stdpp Require Import base option list gmap strings fin_maps.

(** ** Python strings *)

Module PyStr.

Definition chr (n : nat) : string := String (ascii_of_nat n) "".

(** ["\n"] *)
Definition nl : string := chr 10.

(** [str.lower] on one code point below 256: A-Z, and the Latin-1
    capitals U+00C0..U+00DE except the multiplication sign U+00D7. *)
Definition is_upper (n : nat) : bool :=
  (((65 <=? n) && (n <=? 90)) ||
   ((192 <=? n) && (n <=? 222) && negb (n =? 215)))%nat.

Definition lower_char (c : ascii) : ascii :=
  let n := nat_of_ascii c in
  if is_upper n then ascii_of_nat (n + 32) else c.

Fixpoint lower (s : string) : string :=
  match s with
  | EmptyString => EmptyString
  | String c s' => String (lower_char c) (lower s')
  end.

(** [s.startswith(p)] *)
Fixpoint startswith (p s : string) : bool :=
  match p, s with
  | EmptyString, _ => true
  | String a p', String b s' => if Ascii.eqb a b then startswith p' s' else false
  | String _ _, EmptyString => false
  end.

(** [needle in hay] for two strings *)
Fixpoint contains (needle hay : string) : bool :=
  if startswith needle hay then true
  else match hay with
       | EmptyString => false
       | String _ hay' => contains needle hay'
       end.

(** Characters removed by [str.strip()]: the code points below 256 for
    which [str.isspace] holds. *)
Definition is_space (c : ascii) : bool :=
  let n := nat_of_ascii c in
  (((9 <=? n) && (n <=? 13)) || ((28 <=? n) && (n <=? 32)) ||
   (n =? 133) || (n =? 160))%nat.

Fixpoint lstrip (s : string) : string :=
  match s with
  | EmptyString => EmptyString
  | String c s' => if is_space c then lstrip s' else s
  end.

Fixpoint rstrip (s : string) : string :=
  match s with
  | EmptyString => EmptyString
  | String c s' =>
      match rstrip s' with
      | EmptyString => if is_space c then EmptyString else String c EmptyString
      | r => String c r
      end
  end.

Definition strip (s : string) : string := rstrip (lstrip s).

(** [sep.join(parts)] *)
Fixpoint join (sep : string) (parts : list string) : string :=
  match parts with
  | [] => ""
  | [p] => p
  | p :: rest => p +:+ sep +:+ join sep rest
  end.

(** Spec-side reading of "[hay] contains [needle]". *)
Definition occurs (needle hay : string) : Prop :=
  ∃ pre post, hay = pre +:+ needle +:+ post.

(** Spec-side reading of "[hay] contains [word] in any letter case": some
    substring of [hay] is [word] up to the case of its letters. *)
Definition occurs_any_case (word hay : string) : Prop :=
  ∃ pre mid post, hay = pre +:+ mid +:+ post ∧ lower mid = word.

End PyStr.

(** ** Data model *)

(** [langchain_core.documents.Document]: a text body and a metadata dict
    (or [None]).  A metadata value is represented by the text that an
    f-string renders for it. *)
Record Document := mkDocument {
  metadata : option (gmap string string);
  page_content : string
}.

(** [BaseMessage]; every message the workflow builds is a
    [HumanMessage(content=...)]. *)
Record Message := HumanMessage { content : string }.

(** [AgentState]: the value of its only key, ["messages"]. *)
Abbreviation AgentState := (list Message).

(** The reducer [add_messages] of the ["messages"] channel.  The messages of
    this workflow are built without an id, so the reducer gives each one a
    fresh id and puts it after the existing ones. *)
Definition add_messages (left right : list Message) : list Message :=
  left ++ right.

(** ** Effects *)

Inductive Event :=
| Print (line : string)
| LLMCall (prompt : string)
| RetrieverLoad
| RetrieverCall (query : string).

Inductive Error :=
| IndexError
| KeyError
| LLMError
| RetrieverLoadError
| RetrieverError
| GraphRecursionError.

(** What a run can touch: the ordered history of its effects and the
    checkpoints of the [MemorySaver], keyed by thread id. *)
Record World := mkWorld {
  events : list Event;
  checkpoints : gmap string (list Message)
}.

(** The external capabilities.  [llm] is the chat model; [retriever_loads]
    tells whether the configuration lookups and the connection to the vector
    store succeed; [vector_store] is the similarity search.
    [product_bot_prompt context question] is the text of
    [PROMPT_REGISTRY[PromptType.PRODUCT_BOT].template] with its two fields
    filled in; [prompt_library/prompts.py] is not among the sources, so the
    template stays a parameter. *)
Record Collaborators := mkCollaborators {
  llm : list Event → string → option string;
  retriever_loads : list Event → bool;
  vector_store : list Event → string → option (list Document);
  product_bot_prompt : string → string → string
}.

Definition M (A : Type) : Type := World → (Error + A) * World.

Definition ret {A} (a : A) : M A := λ w, (inr a, w).

Definition raise {A} (e : Error) : M A := λ w, (inl e, w).

Definition bind {A B} (m : M A) (k : A → M B) : M B :=
  λ w, match m w with
       | (inr a, w') => k a w'
       | (inl e, w') => (inl e, w')
       end.

Notation "'let*' x ':=' m 'in' k" := (bind m (λ x, k))
  (at level 10, x binder, m at level 200, k at level 200, only parsing).

Definition emit (e : Event) : M unit :=
  λ w, (inr tt, mkWorld (events w ++ [e]) (checkpoints w)).

Definition print (line : string) : M unit := emit (Print line).

(** One call of the chat model on a prompt text; the answer's text. *)
Definition llm_invoke (C : Collaborators) (prompt : string) : M string :=
  λ w, match llm C (events w) prompt with
       | Some answer => (inr answer, mkWorld (events w ++ [LLMCall prompt]) (checkpoints w))
       | None => (inl LLMError, mkWorld (events w ++ [LLMCall prompt]) (checkpoints w))
       end.

(** [seq[0]] and [seq[-1]] *)
Definition first_item {A} (l : list A) : M A :=
  match l !! 0 with
  | Some a => ret a
  | None => raise IndexError
  end.

Definition last_item {A} (l : list A) : M A :=
  match last l with
  | Some a => ret a
  | None => raise IndexError
  end.

(** ** retriever/retrieval.py *)

(** [Retriever.load_retriever].  [self.retriever] is never assigned, so every
    call that gets through the configuration lookups and the vector-store
    connection builds a retriever, prints and returns it. *)
Definition load_retriever (C : Collaborators) : M unit :=
  λ w, if retriever_loads C (events w)
       then print "Retriever loaded successfully."
              (mkWorld (events w ++ [RetrieverLoad]) (checkpoints w))
       else (inl RetrieverLoadError, mkWorld (events w ++ [RetrieverLoad]) (checkpoints w)).

(** [retriever.invoke(query)] *)
Definition retriever_invoke (C : Collaborators) (query : string) : M (list Document) :=
  λ w, match vector_store C (events w) query with
       | Some docs => (inr docs, mkWorld (events w ++ [RetrieverCall query]) (checkpoints w))
       | None => (inl RetrieverError, mkWorld (events w ++ [RetrieverCall query]) (checkpoints w))
       end.

(** ** AgenticRAG: helper *)

Definition NO_DOCS : string := "No relevant documents found.".

(** ["\n\n---\n\n"] *)
Definition SEPARATOR : string :=
  PyStr.nl +:+ PyStr.nl +:+ "---" +:+ PyStr.nl +:+ PyStr.nl.

(** [meta.get(key, 'N/A')] *)
Definition meta_get (meta : gmap string string) (key : string) : string :=
  default "N/A" (meta !! key).

(** The f-string of the loop body. *)
Definition format_chunk (d : Document) : string :=
  let meta := default ∅ (metadata d) in
  "Title: " +:+ meta_get meta "product_title" +:+ PyStr.nl +:+
  "Price: " +:+ meta_get meta "price" +:+ PyStr.nl +:+
  "Rating: " +:+ meta_get meta "rating" +:+ PyStr.nl +:+
  "Reviews:" +:+ PyStr.nl +:+ PyStr.strip (page_content d).

(** [for d in docs: ... formatted_chunks.append(formatted)]: the list
    iterator reads [docs[i]] until the index runs off the list.  The pair
    carried along is the two list objects the loop can reach. *)
Fixpoint format_loop (fuel i : nat) (docs : list Document) (formatted_chunks : list string)
  : list Document * list string :=
  match fuel with
  | 0 => (docs, formatted_chunks)
  | S fuel' =>
      match docs !! i with
      | None => (docs, formatted_chunks)
      | Some d => format_loop fuel' (S i) docs (formatted_chunks ++ [format_chunk d])
      end
  end.

(** [_format_docs], with the list object it was given as it is on return. *)
Definition _format_docs_run (docs : option (list Document))
  : string * option (list Document) :=
  match docs with
  | None => (NO_DOCS, None)
  | Some [] => (NO_DOCS, Some [])
  | Some ds =>
      let '(ds', formatted_chunks) := format_loop (length ds) 0 ds [] in
      (PyStr.join SEPARATOR formatted_chunks, Some ds')
  end.

Definition _format_docs (docs : option (list Document)) : string :=
  fst (_format_docs_run docs).

(** ** AgenticRAG: nodes *)

Definition ROUTING_KEYWORDS : list string := ["price"; "review"; "product"].

Definition TOOL_MARKER : string := "TOOL: retriever".

(** The template of [_ai_assistant], with [{question}] filled in. *)
Definition direct_prompt (question : string) : string :=
  "You are a helpful assistant. Answer the user directly." +:+ PyStr.nl +:+ PyStr.nl +:+
  "Question: " +:+ question +:+ PyStr.nl +:+ "Answer:".

(** The template of [_grade_documents], with [{question}] and [{docs}]
    filled in; the triple-quoted literal continues on an indented line. *)
Definition grader_prompt (question docs : string) : string :=
  "You are a grader. Question: " +:+ question +:+ PyStr.nl +:+
  "Docs: " +:+ docs +:+ PyStr.nl +:+ PyStr.nl +:+
  "            Are docs relevant to the question? Answer yes or no.".

Definition rewrite_prompt (question : string) : string :=
  "Rewrite the query to be clearer: " +:+ question.

(** [any(word in last_message.lower() for word in [...])] *)
Definition wants_retrieval (last_message : string) : bool :=
  existsb (λ word, PyStr.contains word (PyStr.lower last_message)) ROUTING_KEYWORDS.

(** A node returns the update [{"messages": [...]}]; its list is the value. *)
Definition _ai_assistant (C : Collaborators) (state : AgentState) : M (list Message) :=
  let* _ := print "--- CALL ASSISTANT ---" in
  let* last := last_item state in
  let last_message := content last in
  if wants_retrieval last_message then
    ret [HumanMessage TOOL_MARKER]
  else
    let* response := llm_invoke C (direct_prompt last_message) in
    ret [HumanMessage response].

Definition _vector_retriever (C : Collaborators) (state : AgentState) : M (list Message) :=
  let* _ := print "--- RETRIEVER ---" in
  let* last := last_item state in
  let query := content last in
  let* _ := load_retriever C in
  let* docs := retriever_invoke C query in
  let context := _format_docs (Some docs) in
  ret [HumanMessage context].

Definition _grade_documents (C : Collaborators) (state : AgentState) : M string :=
  let* _ := print "--- GRADER ---" in
  let* first := first_item state in
  let question := content first in
  let* last := last_item state in
  let docs := content last in
  let* score := llm_invoke C (grader_prompt question docs) in
  ret (if PyStr.contains "yes" (PyStr.lower score) then "generator" else "rewriter").

Definition _generate (C : Collaborators) (state : AgentState) : M (list Message) :=
  let* _ := print "--- GENERATE ---" in
  let* first := first_item state in
  let question := content first in
  let* last := last_item state in
  let docs := content last in
  let* response := llm_invoke C (product_bot_prompt C docs question) in
  ret [HumanMessage response].

Definition _rewrite (C : Collaborators) (state : AgentState) : M (list Message) :=
  let* _ := print "--- REWRITE ---" in
  let* first := first_item state in
  let question := content first in
  let* new_q := llm_invoke C (rewrite_prompt question) in
  ret [HumanMessage new_q].

(** ** AgenticRAG: the graph of [_build_workflow] *)

Inductive Node := Assistant | Retriever | Generator | Rewriter.

Inductive Target := Goto (n : Node) | END.

(** [workflow.add_node] *)
Definition node_action (C : Collaborators) (n : Node) : AgentState → M (list Message) :=
  match n with
  | Assistant => _ai_assistant C
  | Retriever => _vector_retriever C
  | Generator => _generate C
  | Rewriter => _rewrite C
  end.

(** The name of [END] in LangGraph. *)
Definition END_name : string := "__end__".

(** The lambda of the conditional edge that leaves ["Assistant"]. *)
Definition assistant_route (state : AgentState) : M string :=
  let* last := last_item state in
  ret (if PyStr.contains "TOOL" (content last) then "Retriever" else END_name).

(** The path maps [{"Retriever": "Retriever", END: END}] and
    [{"generator": "Generator", "rewriter": "Rewriter"}]. *)
Definition assistant_path_map : gmap string Target :=
  <["Retriever" := Goto Retriever]> (<[END_name := END]> ∅).

Definition grade_path_map : gmap string Target :=
  <["generator" := Goto Generator]> (<["rewriter" := Goto Rewriter]> ∅).

Definition path_lookup (key : string) (path_map : gmap string Target) : M Target :=
  match path_map !! key with
  | Some target => ret target
  | None => raise KeyError
  end.

Definition after_assistant (state : AgentState) : M Target :=
  let* key := assistant_route state in
  path_lookup key assistant_path_map.

(** The edges that leave a node, evaluated on the state that already holds
    the node's update. *)
Definition next_target (C : Collaborators) (n : Node) (state : AgentState) : M Target :=
  match n with
  | Assistant => after_assistant state
  | Retriever => let* verdict := _grade_documents C state in
                 path_lookup verdict grade_path_map
  | Generator => ret END
  | Rewriter => ret (Goto Assistant)
  end.

(** ** Execution of the compiled graph with the [MemorySaver] *)

Definition load_checkpoint (thread_id : string) : M AgentState :=
  λ w, (inr (default [] (checkpoints w !! thread_id)), w).

Definition save_checkpoint (thread_id : string) (state : AgentState) : M unit :=
  λ w, (inr tt, mkWorld (events w) (<[thread_id := state]> (checkpoints w))).

(** One step: the node runs, the reducer merges its update, the edges that
    leave it choose the successor, and the new state is checkpointed. *)
Definition step (C : Collaborators) (thread_id : string) (n : Node) (state : AgentState)
  : M (Target * AgentState) :=
  let* update := node_action C n state in
  let state' := add_messages state update in
  let* target := next_target C n state' in
  let* _ := save_checkpoint thread_id state' in
  ret (target, state').

(** The executor.  [limit] is the step budget of one invocation
    (LangGraph's [recursion_limit]); when it is used up before [END] is
    reached the executor raises. *)
Fixpoint execute (C : Collaborators) (limit : nat) (thread_id : string)
    (n : Node) (state : AgentState) : M AgentState :=
  match limit with
  | 0 => raise GraphRecursionError
  | S limit' =>
      let* '(target, state') := step C thread_id n state in
      match target with
      | END => ret state'
      | Goto n' => execute C limit' thread_id n' state'
      end
  end.

(** [self.app.invoke(input, config)]: the input is merged into the state
    saved for the thread (empty for a new thread), and the graph is entered
    at [START], whose edge leads to ["Assistant"]. *)
Definition app_invoke (C : Collaborators) (limit : nat) (thread_id : string)
    (input : list Message) : M AgentState :=
  let* saved := load_checkpoint thread_id in
  let state := add_messages saved input in
  let* _ := save_checkpoint thread_id state in
  execute C limit thread_id Assistant state.

Definition default_thread : string := "default_thread".

(** [AgenticRAG.run] *)
Definition run (C : Collaborators) (limit : nat) (query thread_id : string) : M string :=
  let* result := app_invoke C limit thread_id [HumanMessage query] in
  let* last := last_item result in
  ret (content last).

Definition fresh_world : World := mkWorld [] ∅.

(** ** Spec-side vocabulary *)

(** The value the formatter shows for a metadata field of an Evidence Item. *)
Definition field (d : Document) (key : string) : string :=
  match metadata d with
  | Some meta => match meta !! key with Some v => v | None => "N/A" end
  | None => "N/A"
  end.

(** The four-field block of the spec: title, price, rating, review text. *)
Definition four_field_block (title price rating review : string) : string :=
  "Title: " +:+ title +:+ PyStr.nl +:+
  "Price: " +:+ price +:+ PyStr.nl +:+
  "Rating: " +:+ rating +:+ PyStr.nl +:+
  "Reviews:" +:+ PyStr.nl +:+ review.

Definition block_of (d : Document) : string :=
  four_field_block (field d "product_title") (field d "price") (field d "rating")
    (PyStr.strip (page_content d)).

(** "The latest turn's text contains a routing keyword, compared
    case-insensitively." *)
Definition mentions_keyword (text : string) : Prop :=
  ∃ word, word ∈ ROUTING_KEYWORDS ∧ PyStr.occurs_any_case word text.

(** "The grader response contains an affirmative token in any case." *)
Definition affirmative (score : string) : Prop :=
  PyStr.occurs_any_case "yes" score.

(** The direct-answer path as the spec words it: a run on a question without
    routing keyword that returns has gone through the Generator node. *)
Definition direct_answer_by_generator_node : Prop :=
  ∀ C limit query thread_id answer w',
    ¬ mentions_keyword query →
    run C limit query thread_id fresh_world = (inr answer, w') →
    Print "--- GENERATE ---" ∈ events w'.

(** The events a piece of the run added to the history. *)
Definition extends_events (w : World) (new : list Event) (w' : World) : Prop :=
  events w' = events w ++ new.

Definition is_rewrite_banner (e : Event) : bool :=
  match e with
  | Print line => String.eqb line "--- REWRITE ---"
  | _ => false
  end.

(** How many times the Rewriter node was entered in a history. *)
Definition rewrites (evs : list Event) : nat :=
  length (List.filter is_rewrite_banner evs).

(** ** Concrete collaborators and inputs *)

Definition plain_template (context question : string) : string :=
  "Context: " +:+ context +:+ PyStr.nl +:+ "Question: " +:+ question.

(** A language model that gives the same answer to every prompt, next to a
    vector store that holds [docs]. *)
Definition constant_llm (answer : string) (docs : list Document) : Collaborators :=
  mkCollaborators (λ _ _, Some answer) (λ _, true) (λ _ _, Some docs) plain_template.

Definition sample_docs : list Document :=
  [mkDocument (Some {[ "product_title" := "Phone A"; "price" := "999" ]}) "  solid battery ";
   mkDocument None "fast"].

Definition first_question : string := "What is the price of iPhone 15?".

Definition second_question : string := "Any review of the Galaxy S24?".

Definition tool_answer : string := "Try the TOOL section of the site.".

Definition sample_state : AgentState :=
  [HumanMessage "What is the price of iPhone 15?"; HumanMessage TOOL_MARKER;
   HumanMessage NO_DOCS].

(** ** Vocabulary for the traces of the engine *)

(** The effects one step of the engine can have, on a state whose first entry
    is [q] and whose last entry is [m]: what the node does and, for the
    Retriever node, what the grading edge does after it. *)
Definition step_effects (C : Collaborators) (n : Node) (q m : Message)
    (new : list Event) : Prop :=
  match n with
  | Assistant =>
      new = [Print "--- CALL ASSISTANT ---"] ∨
      new = [Print "--- CALL ASSISTANT ---"; LLMCall (direct_prompt (content m))]
  | Retriever =>
      new = [Print "--- RETRIEVER ---"; RetrieverLoad] ∨
      new = [Print "--- RETRIEVER ---"; RetrieverLoad;
             Print "Retriever loaded successfully."; RetrieverCall (content m)] ∨
      ∃ docs,
        new = [Print "--- RETRIEVER ---"; RetrieverLoad;
               Print "Retriever loaded successfully."; RetrieverCall (content m);
               Print "--- GRADER ---";
               LLMCall (grader_prompt (content q) (_format_docs (Some docs)))]
  | Generator =>
      new = [Print "--- GENERATE ---";
             LLMCall (product_bot_prompt C (content m) (content q))]
  | Rewriter =>
      new = [Print "--- REWRITE ---"; LLMCall (rewrite_prompt (content q))]
  end.

(** The edges of the graph of [_build_workflow]. *)
Definition graph_edge (n : Node) (target : Target) : Prop :=
  match n with
  | Assistant => target = Goto Retriever ∨ target = END
  | Retriever => target = Goto Generator ∨ target = Goto Rewriter
  | Generator => target = END
  | Rewriter => target = Goto Assistant
  end.

(** A query of the vector store that holds the tool sentinel. *)
Definition query_has_sentinel (e : Event) : Prop :=
  match e with
  | RetrieverCall query => PyStr.occurs "TOOL" query
  | _ => True
  end.

(** A language-model prompt of a run whose state starts with the question
    [question]: the router's prompt may hold any text; the grader's, the
    generator's and the rewriter's hold [question]. *)
Definition prompt_about (C : Collaborators) (question : string) (e : Event) : Prop :=
  match e with
  | LLMCall prompt =>
      (∃ text, prompt = direct_prompt text) ∨
      (∃ docs, prompt = grader_prompt question docs) ∨
      (∃ docs, prompt = product_bot_prompt C docs question) ∨
      prompt = rewrite_prompt question
  | _ => True
  end.

(** The errors that come from a collaborator or from the step budget. *)
Definition external_error (e : Error) : Prop :=
  e = LLMError ∨ e = RetrieverLoadError ∨ e = RetrieverError ∨ e = GraphRecursionError.

(** The state a run on thread [thread_id] starts from. *)
Definition initial_state (w : World) (thread_id query : string) : AgentState :=
  add_messages (default [] (checkpoints w !! thread_id)) [HumanMessage query].

(** The text the nodes take for "the question": the first entry. *)
Definition question_of (state : AgentState) : string :=
  match state !! 0 with
  | Some q => content q
  | None => ""
  end.

(** ** Python and operating-system helpers shared by the other modules *)

Module PyLib.

(** [os.environ]; [os.getenv(name)] is the lookup. *)
Abbreviation Env := (gmap string string).

(** [load_dotenv()]: the variables of the [.env] file are added to the
    environment, those already set keep their value. *)
Definition load_dotenv (dotenv env : Env) : Env := env ∪ dotenv.

(** Truth value of a string: non-empty. *)
Definition truthy (s : string) : bool :=
  match s with
  | EmptyString => false
  | String _ _ => true
  end.

(** [repr] of a list of plain names (no quote, backslash or control
    character in them): ['A', 'B']. *)
Definition repr_names (names : list string) : string :=
  "[" +:+ PyStr.join ", " (map (λ name, "'" +:+ name +:+ "'") names) +:+ "]".


(** [s[:n]] for a string and [n >= 0]. *)
Fixpoint take (n : nat) (s : string) : string :=
  match n, s with
  | S n', String c s' => String c (take n' s')
  | _, _ => EmptyString
  end.

(** [s.replace(old, new)] for two single characters. *)
Fixpoint replace_char (old new : ascii) (s : string) : string :=
  match s with
  | EmptyString => EmptyString
  | String c s' => String (if Ascii.eqb c old then new else c) (replace_char old new s')
  end.

End PyLib.

(** ** etl/data_ingestion.py *)

Module Ingestion.

Inductive Error :=
| EnvironmentError (message : string)
| ValueError
| KeyError (column : string).

(** The attributes set by [_load_env_variables]; [os.getenv] returns a
    string or [None]. *)
Record Credentials := mkCredentials {
  google_api_key : option string;
  db_api_endpoint : option string;
  db_application_token : option string;
  db_keyspace : option string
}.

Definition required_vars : list string :=
  ["GOOGLE_API_KEY"; "ASTRA_DB_API_ENDPOINT"; "ASTRA_DB_APPLICATION_TOKEN";
   "ASTRA_DB_KEYSPACE"].

(** [DataIngestion._load_env_variables]; the second component is the
    environment after [load_dotenv()]. *)
Definition _load_env_variables (dotenv env : PyLib.Env) : (Error + Credentials) * PyLib.Env :=
  let env := PyLib.load_dotenv dotenv env in
  let missing_vars := List.filter (λ var, bool_decide (env !! var = None)) required_vars in
  match missing_vars with
  | _ :: _ =>
      (inl (EnvironmentError
              ("Missing environment variables: " +:+ PyLib.repr_names missing_vars)), env)
  | [] =>
      (inr (mkCredentials (env !! "GOOGLE_API_KEY") (env !! "ASTRA_DB_API_ENDPOINT")
              (env !! "ASTRA_DB_APPLICATION_TOKEN") (env !! "ASTRA_DB_KEYSPACE")), env)
  end.

(** A [pandas.DataFrame] as the pipeline uses it: the column names and the
    rows, a cell being represented by its text. *)
Record DataFrame := mkDataFrame {
  columns : list string;
  rows : list (gmap string string)
}.

Definition expected_columns : list string :=
  ["product_id"; "product_title"; "rating"; "total_reviews"; "price"; "top_reviews"].

(** [DataIngestion._load_csv], after [pd.read_csv] has produced [df]. *)
Definition _load_csv (df : DataFrame) : Error + DataFrame :=
  if forallb (λ c, bool_decide (c ∈ columns df)) expected_columns
  then inr df
  else inl ValueError.

(** [row[column]] *)
Definition cell (row : gmap string string) (column : string) : Error + string :=
  match row !! column with
  | Some v => inr v
  | None => inl (KeyError column)
  end.






End Ingestion.

(** ** retriever/retrieval.py: the environment check *)

Module Retrieval.

Inductive Error :=
| EnvironmentError (message : string).

Record Credentials := mkCredentials {
  google_api_key : option string;
  db_api_endpoint : option string;
  db_application_token : option string;
  db_keyspace : option string
}.

Definition required_vars : list string :=
  ["GOOGLE_API_KEY"; "ASTRA_DB_API_ENDPOINT"; "ASTRA_DB_APPLICATION_TOKEN";
   "ASTRA_DB_KEYSPACE"].

(** [Retriever._load_env_variables] *)
Definition _load_env_variables (dotenv env : PyLib.Env) : (Error + Credentials) * PyLib.Env :=
  let env := PyLib.load_dotenv dotenv env in
  let missing_vars := List.filter (λ var, bool_decide (env !! var = None)) required_vars in
  match missing_vars with
  | _ :: _ =>
      (inl (EnvironmentError
              ("Missing environment variables: " +:+ PyLib.repr_names missing_vars)), env)
  | [] =>
      (inr (mkCredentials (env !! "GOOGLE_API_KEY") (env !! "ASTRA_DB_API_ENDPOINT")
              (env !! "ASTRA_DB_APPLICATION_TOKEN") (env !! "ASTRA_DB_KEYSPACE")), env)
  end.

End Retrieval.

(** ** utils/config_loader.py *)

Module Config.

(** A YAML document as [yaml.safe_load] returns it, with strings as mapping
    keys.  A float is kept as its literal, with its truth value. *)
#[warnings="-register-all"]
Inductive Yaml :=
| YStr (s : string)
| YInt (z : Z)
| YFloat (literal : string) (nonzero : bool)
| YBool (b : bool)
| YNull
| YList (items : list Yaml)
| YMap (entries : gmap string Yaml).

(** Truth value of a loaded document, as [or] tests it. *)
Definition truth (y : Yaml) : bool :=
  match y with
  | YStr s => PyLib.truthy s
  | YInt z => negb (Z.eqb z 0)
  | YFloat _ nonzero => nonzero
  | YBool b => b
  | YNull => false
  | YList items => match items with [] => false | _ => true end
  | YMap entries => negb (bool_decide (entries = ∅))
  end.

Inductive Error :=
| FileNotFoundError (path : string)
| OSError
| YAMLError.

(** The file system and [pathlib], as far as [load_config] uses them.  A
    path is represented by its text. *)
Record FileSystem := mkFileSystem {
  (** [str(_project_root() / "config" / "config.yaml")] *)
  default_path : string;
  (** [Path(p).is_absolute()] *)
  is_absolute : string → bool;
  (** [_project_root() / Path(p)] *)
  under_root : string → string;
  (** [path.exists()] *)
  path_exists : string → bool;
  (** [open(path)] followed by [yaml.safe_load(f)] *)
  safe_load : string → Error + Yaml
}.

(** [load_config] *)
Definition load_config (fs : FileSystem) (env : PyLib.Env) (config_path : option string)
  : Error + Yaml :=
  let env_path := env !! "CONFIG_PATH" in
  let config_path :=
    match config_path with
    | Some p => p
    | None =>
        match env_path with
        | Some p => if PyLib.truthy p then p else default_path fs
        | None => default_path fs
        end
    end in
  let path := if is_absolute fs config_path then config_path
              else under_root fs config_path in
  if negb (path_exists fs path) then inl (FileNotFoundError path)
  else match safe_load fs path with
       | inr document => inr (if truth document then document else YMap ∅)
       | inl e => inl e
       end.

End Config.

(** ** utils/model_loader.py *)

Module ModelLoader.

(** A value of the JSON object in [API_KEYS]: a string, or something else
    with its truth value. *)
Inductive JsonValue :=
| JString (s : string)
| JOther (truth : bool).

(** What [json.loads(raw)] does. *)
Inductive JsonParse :=
| JsonObject (object : gmap string JsonValue)
| JsonNonObject
| JsonDecodeError (message : string).

Inductive Error :=
| ProductAssistantException (message : string)
| KeyError (argument : string)
| ValueError (message : string)
| UnsupportedProvider (provider : Config.Yaml)
| TypeError
| AttributeError
| MaskingError
| ConfigError (e : Config.Error).

Inductive Level := INFO | WARNING | ERROR.

Inductive LogValue :=
| LStr (s : string)
| LNames (names : list string)
| LKeys (keys : gset string)
| LMasked (values : gmap string string)
| LYaml (y : Config.Yaml)
| LError (e : Error).

(** A call of the logger: its level, its message and its keyword fields. *)
Record LogRecord := mkLog {
  level : Level;
  event : string;
  fields : list (string * LogValue)
}.

Record ApiKeyManager := mkApiKeyManager {
  api_keys : gmap string JsonValue
}.

Definition REQUIRED_KEYS : list string := ["GROQ_API_KEY"; "GOOGLE_API_KEY"].

(** Truth value of [self.api_keys.get(key)] *)
Definition available (v : option JsonValue) : bool :=
  match v with
  | Some (JString s) => PyLib.truthy s
  | Some (JOther truth) => truth
  | None => false
  end.

(** The [if raw:] block of [ApiKeyManager.__init__]. *)
Definition read_blob (json_loads : string → JsonParse) (env : PyLib.Env)
  : gmap string JsonValue * list LogRecord :=
  match env !! "API_KEYS" with
  | Some raw =>
      if PyLib.truthy raw then
        match json_loads raw with
        | JsonObject parsed => (parsed, [mkLog INFO "Loaded API_KEYS from ECS secret" []])
        | JsonNonObject =>
            (∅, [mkLog WARNING "Failed to parse API_KEYS as JSON"
                   [("error", LStr "API_KEYS is not a valid JSON object")]])
        | JsonDecodeError message =>
            (∅, [mkLog WARNING "Failed to parse API_KEYS as JSON" [("error", LStr message)]])
        end
      else (∅, [])
  | None => (∅, [])
  end.

(** The body of the loop over [REQUIRED_KEYS]. *)
Definition fill_from_env (env : PyLib.Env) (acc : gmap string JsonValue * list LogRecord)
    (key : string) : gmap string JsonValue * list LogRecord :=
  let '(keys, log) := acc in
  if available (keys !! key) then acc
  else match env !! key with
       | Some env_val =>
           if PyLib.truthy env_val
           then (<[key := JString env_val]> keys,
                 log ++ [mkLog INFO ("Loaded " +:+ key +:+ " from individual env var") []])
           else acc
       | None => acc
       end.

(** [v[:6] + "..."]; it raises for a value that is not a string
    ([TypeError]; [KeyError] for a JSON object from Python 3.12 on). *)
Definition mask (v : JsonValue) : option string :=
  match v with
  | JString s => Some (PyLib.take 6 s +:+ "...")
  | JOther _ => None
  end.

Definition masked_keys (keys : gmap string JsonValue) : option (gmap string string) :=
  if bool_decide (map_Forall (λ _ v, is_Some (mask v)) keys)
  then Some (omap mask keys)
  else None.

(** [ApiKeyManager.__init__]: the manager or the exception, and the log. *)
Definition ApiKeyManager_init (json_loads : string → JsonParse) (env : PyLib.Env)
  : (Error + ApiKeyManager) * list LogRecord :=
  let '(keys, log) := foldl (fill_from_env env) (read_blob json_loads env) REQUIRED_KEYS in
  let missing := List.filter (λ k, negb (available (keys !! k))) REQUIRED_KEYS in
  match missing with
  | _ :: _ =>
      (inl (ProductAssistantException "Missing API keys"),
       log ++ [mkLog ERROR "Missing required API keys" [("missing_keys", LNames missing)]])
  | [] =>
      match masked_keys keys with
      | Some masked =>
          (inr (mkApiKeyManager keys),
           log ++ [mkLog INFO "API keys loaded" [("keys", LMasked masked)]])
      | None => (inl MaskingError, log)
      end
  end.

(** [ApiKeyManager.get] *)
Definition get (self : ApiKeyManager) (key : string) : Error + JsonValue :=
  match api_keys self !! key with
  | Some val =>
      if available (Some val) then inr val
      else inl (KeyError ("API key for " +:+ key +:+ " is missing"))
  | None => inl (KeyError ("API key for " +:+ key +:+ " is missing"))
  end.

(** [y[key]], [key in y] and [y.get(key, default)] on a loaded document. *)
Definition getitem (y : Config.Yaml) (key : string) : Error + Config.Yaml :=
  match y with
  | Config.YMap entries =>
      match entries !! key with
      | Some v => inr v
      | None => inl (KeyError key)
      end
  | _ => inl TypeError
  end.

Definition contains_key (key : string) (y : Config.Yaml) : Error + bool :=
  match y with
  | Config.YMap entries => inr (bool_decide (is_Some (entries !! key)))
  | Config.YStr s => inr (PyStr.contains key s)
  | Config.YList items =>
      inr (existsb (λ item, match item with
                            | Config.YStr s => String.eqb s key
                            | _ => false
                            end) items)
  | _ => inl TypeError
  end.

Definition get_or (y : Config.Yaml) (key : string) (dflt : Config.Yaml)
  : Error + Config.Yaml :=
  match y with
  | Config.YMap entries => inr (default dflt (entries !! key))
  | _ => inl AttributeError
  end.

(** [provider == name] *)
Definition is_name (provider : Config.Yaml) (name : string) : bool :=
  match provider with
  | Config.YStr s => String.eqb s name
  | _ => false
  end.

Record ModelLoader := mkModelLoader {
  api_key_mgr : ApiKeyManager;
  config : Config.Yaml
}.

(** [os.getenv("ENV", "local").lower() != "production"] *)
Definition local_mode (env : PyLib.Env) : bool :=
  negb (String.eqb (PyStr.lower (default "local" (env !! "ENV"))) "production").

(** [ModelLoader.__init__]: the loader or the exception, the environment it
    leaves and the log. *)
Definition ModelLoader_init (fs : Config.FileSystem) (json_loads : string → JsonParse)
    (dotenv env : PyLib.Env) : (Error + ModelLoader) * PyLib.Env * list LogRecord :=
  let '(env, log) :=
    if local_mode env
    then (PyLib.load_dotenv dotenv env, [mkLog INFO "Running in LOCAL mode: .env loaded" []])
    else (env, [mkLog INFO "Running in PRODUCTION mode" []]) in
  match ApiKeyManager_init json_loads env with
  | (inl e, log') => (inl e, env, log ++ log')
  | (inr mgr, log') =>
      match Config.load_config fs env None with
      | inl e => (inl (ConfigError e), env, log ++ log')
      | inr (Config.YMap entries) =>
          (inr (mkModelLoader mgr (Config.YMap entries)), env,
           log ++ log' ++ [mkLog INFO "YAML config loaded" [("config_keys", LKeys (dom entries))]])
      | inr _ => (inl AttributeError, env, log ++ log')
      end
  end.

(** The model the loader asks a provider library for. *)
Inductive ChatModel :=
| ChatGoogleGenerativeAI (model : Config.Yaml) (google_api_key : JsonValue)
    (temperature max_output_tokens : Config.Yaml)
| ChatGroq (model : Config.Yaml) (api_key : JsonValue)
    (temperature max_output_tokens : Config.Yaml).

Record Embeddings := GoogleGenerativeAIEmbeddings {
  embedding_model : Config.Yaml;
  embedding_api_key : JsonValue
}.

(** A computation that logs and may raise. *)
Definition Logged (A : Type) : Type := (Error + A) * list LogRecord.

Definition pure {A} (a : A) : Logged A := (inr a, []).

Definition fail {A} (e : Error) : Logged A := (inl e, []).

Definition lift {A} (r : Error + A) : Logged A := (r, []).

Definition log_call (l : Level) (event : string) (fields : list (string * LogValue))
  : Logged unit := (inr tt, [mkLog l event fields]).

Definition and_then {A B} (m : Logged A) (k : A → Logged B) : Logged B :=
  match m with
  | (inr a, log) => let '(r, log') := k a in (r, log ++ log')
  | (inl e, log) => (inl e, log)
  end.

Notation "'let+' x ':=' m 'in' k" := (and_then m (λ x, k))
  (at level 10, x binder, m at level 200, k at level 200, only parsing).

(** [ModelLoader.load_llm] *)
Definition load_llm (self : ModelLoader) (env : PyLib.Env) : Logged ChatModel :=
  let+ llm_block := lift (getitem (config self) "llm") in
  let provider_key := default "google" (env !! "LLM_PROVIDER") in
  let+ found := lift (contains_key provider_key llm_block) in
  if negb found then
    let+ _ := log_call ERROR "LLM provider not found in config"
                [("provider", LStr provider_key)] in
    fail (ValueError ("LLM provider '" +:+ provider_key +:+ "' not found in config"))
  else
    let+ llm_config := lift (getitem llm_block provider_key) in
    let+ provider := lift (get_or llm_config "provider" Config.YNull) in
    let+ model_name := lift (get_or llm_config "model_name" Config.YNull) in
    let+ temperature := lift (get_or llm_config "temperature" (Config.YFloat "0.2" true)) in
    let+ max_tokens := lift (get_or llm_config "max_output_tokens" (Config.YInt 2048)) in
    let+ _ := log_call INFO "Loading LLM"
                [("provider", LYaml provider); ("model", LYaml model_name)] in
    if is_name provider "google" then
      let+ key := lift (get (api_key_mgr self) "GOOGLE_API_KEY") in
      pure (ChatGoogleGenerativeAI model_name key temperature max_tokens)
    else if is_name provider "groq" then
      let+ key := lift (get (api_key_mgr self) "GROQ_API_KEY") in
      pure (ChatGroq model_name key temperature max_tokens)
    else
      let+ _ := log_call ERROR "Unsupported LLM provider" [("provider", LYaml provider)] in
      fail (UnsupportedProvider provider).

(** The [try] block of [load_embeddings]. *)
Definition load_embeddings_try (self : ModelLoader) : Logged Embeddings :=
  let+ block := lift (getitem (config self) "embedding_model") in
  let+ model_name := lift (getitem block "model_name") in
  let+ _ := log_call INFO "Loading embedding model" [("model", LYaml model_name)] in
  let+ key := lift (get (api_key_mgr self) "GOOGLE_API_KEY") in
  pure (GoogleGenerativeAIEmbeddings model_name key).

(** [ModelLoader.load_embeddings]: whatever the [try] block raises is logged
    and replaced. *)
Definition load_embeddings (self : ModelLoader) : Logged Embeddings :=
  match load_embeddings_try self with
  | (inr embeddings, log) => (inr embeddings, log)
  | (inl e, log) =>
      (inl (ProductAssistantException "Failed to load embedding model"),
       log ++ [mkLog ERROR "Error loading embedding model" [("error", LError e)]])
  end.

End ModelLoader.

(** ** retriever/retrieval.py: the class [Retriever] *)

Module RetrieverClass.

(** The arguments [AstraDBVectorStore] is built with. *)
Record VectorStore := AstraDBVectorStore {
  embedding : ModelLoader.Embeddings;
  collection_name : Config.Yaml;
  api_endpoint : option string;
  token : option string;
  namespace : option string
}.

(** [vstore.as_retriever(search_kwargs={"k": top_k})] *)
Record VectorStoreRetriever := as_retriever {
  store : VectorStore;
  k : Config.Yaml
}.

Inductive Error :=
| LoaderError (e : ModelLoader.Error)
| EnvError (e : Retrieval.Error)
| ConnectionError.

Inductive Effect :=
| Log (record : ModelLoader.LogRecord)
| Connect (store : VectorStore)
| Print (line : string).

Record Retriever := mkRetriever {
  model_loader : ModelLoader.ModelLoader;
  config : Config.Yaml;
  credentials : Retrieval.Credentials;
  vstore : option VectorStore;
  retriever : option VectorStoreRetriever
}.

(** [Retriever.__init__]: the object or the exception, the environment it
    leaves and the log of the model loader. *)
Definition Retriever_init (fs : Config.FileSystem)
    (json_loads : string → ModelLoader.JsonParse) (dotenv env : PyLib.Env)
  : (Error + Retriever) * PyLib.Env * list ModelLoader.LogRecord :=
  match ModelLoader.ModelLoader_init fs json_loads dotenv env with
  | (inl e, env, log) => (inl (LoaderError e), env, log)
  | (inr loader, env, log) =>
      match Config.load_config fs env None with
      | inl e => (inl (LoaderError (ModelLoader.ConfigError e)), env, log)
      | inr config =>
          match Retrieval._load_env_variables dotenv env with
          | (inl e, env) => (inl (EnvError e), env, log)
          | (inr credentials, env) =>
              (inr (mkRetriever loader config credentials None None), env, log)
          end
      end
  end.

(** The block [if not self.vstore: ...] of [load_retriever].  [connects]
    tells whether the constructor of the vector store gets through. *)
Definition ensure_vstore (connects : VectorStore → bool) (self : Retriever)
  : (Error + VectorStore) * Retriever * list Effect :=
  match vstore self with
  | Some store => (inr store, self, [])
  | None =>
      match ModelLoader.getitem (config self) "astra_db" with
      | inl e => (inl (LoaderError e), self, [])
      | inr block =>
          match ModelLoader.getitem block "collection_name" with
          | inl e => (inl (LoaderError e), self, [])
          | inr name =>
              match ModelLoader.load_embeddings (model_loader self) with
              | (inl e, log) => (inl (LoaderError e), self, map Log log)
              | (inr embeddings, log) =>
                  let store :=
                    AstraDBVectorStore embeddings name
                      (Retrieval.db_api_endpoint (credentials self))
                      (Retrieval.db_application_token (credentials self))
                      (Retrieval.db_keyspace (credentials self)) in
                  if connects store
                  then (inr store,
                        mkRetriever (model_loader self) (config self) (credentials self)
                          (Some store) (retriever self),
                        map Log log ++ [Connect store])
                  else (inl ConnectionError, self, map Log log ++ [Connect store])
              end
          end
      end
  end.

(** [self.config["retriever"]["top_k"] if "retriever" in self.config else 3] *)
Definition top_k (config : Config.Yaml) : ModelLoader.Error + Config.Yaml :=
  match ModelLoader.contains_key "retriever" config with
  | inl e => inl e
  | inr true =>
      match ModelLoader.getitem config "retriever" with
      | inl e => inl e
      | inr block => ModelLoader.getitem block "top_k"
      end
  | inr false => inr (Config.YInt 3)
  end.

(** [Retriever.load_retriever]: what it returns ([None] when the second
    [if] is skipped), the object afterwards and the effects. *)
Definition load_retriever (connects : VectorStore → bool) (self : Retriever)
  : (Error + option VectorStoreRetriever) * Retriever * list Effect :=
  match ensure_vstore connects self with
  | (inl e, self, effects) => (inl e, self, effects)
  | (inr store, self, effects) =>
      match retriever self with
      | None =>
          match top_k (config self) with
          | inl e => (inl (LoaderError e), self, effects)
          | inr top_k =>
              (inr (Some (as_retriever store top_k)), self,
               effects ++ [Print "Retriever loaded successfully."])
          end
      | Some _ => (inr None, self, effects)
      end
  end.

End RetrieverClass.

(** ** etl/data_scrapper.py *)

Module Scraper.

Inductive Error :=
| ChromeError
| WebDriverError.

Inductive Effect :=
| ChromeStart
| Get (url : string)
| Quit
| Print (line : string)
| MakeDirs (path : string)
| WriteRows (path : string) (rows : list (list string)).

(** What happens in the [try] block of [get_top_reviews] on a product page:
    [driver.get] raises, or the page loads; then closing the popup may raise
    (the text of the exception), and scrolling and parsing either raise or
    yield the texts of the review blocks, in page order. *)
Inductive Visit :=
| GetFails
| Visited (popup_error : option string) (blocks : option (list string)).

(** One search result: an element lookup raises (the text of the exception),
    or the five texts are there. *)
Inductive Item :=
| ItemError (message : string)
| ItemTexts (title price rating reviews_text href : string).

(** What happens on the search page: [driver.get] raises, or the page
    loads; then the popup as above, and [find_elements] raises or yields the
    results. *)
Inductive SearchVisit :=
| SearchGetFails
| SearchVisited (popup_error : option string) (items : option (list Item)).

(** The browser: each answer may depend on the effects so far. *)
Record Browser := mkBrowser {
  chrome_starts : list Effect → bool;
  visit : list Effect → string → Visit;
  search : list Effect → string → SearchVisit
}.

Definition popup_message (e : string) : string :=
  "Error occurred while closing popup: " +:+ e.

(** The loop over [review_blocks]. *)
Fixpoint collect (count : Z) (blocks : list string) (seen : gset string)
    (reviews : list string) : list string :=
  match blocks with
  | [] => reviews
  | text :: rest =>
      let '(seen, reviews) :=
        if PyLib.truthy text && negb (bool_decide (text ∈ seen))
        then ({[text]} ∪ seen, reviews ++ [text])
        else (seen, reviews) in
      if (count <=? Z.of_nat (length reviews))%Z then reviews
      else collect count rest seen reviews
  end.

(** [" || ".join(reviews) if reviews else "No reviews found"] *)
Definition render_reviews (reviews : list string) : string :=
  match reviews with
  | [] => "No reviews found"
  | _ => PyStr.join " || " reviews
  end.

(** [FlipkartScraper.get_top_reviews]: given the effects so far, what it
    returns or raises and the effects it adds. *)
Definition get_top_reviews (browser : Browser) (history : list Effect)
    (product_url : string) (count : Z) : (Error + string) * list Effect :=
  if negb (chrome_starts browser history) then (inl ChromeError, [ChromeStart])
  else if negb (PyStr.startswith "http" product_url)
  then (inr "No reviews found", [ChromeStart])
  else
    match visit browser (history ++ [ChromeStart]) product_url with
    | GetFails =>
        (inr (render_reviews []), [ChromeStart; Get product_url; Quit])
    | Visited popup_error blocks =>
        let popup := match popup_error with
                     | Some e => [Print (popup_message e)]
                     | None => []
                     end in
        let reviews := match blocks with
                       | Some blocks => collect count blocks ∅ []
                       | None => []
                       end in
        (inr (render_reviews reviews),
         [ChromeStart; Get product_url] ++ popup ++ [Quit])
    end.

(** [items[:max_products]] *)
Definition slice_to {A} (l : list A) (stop : Z) : list A :=
  if (0 <=? stop)%Z then take (Z.to_nat stop) l
  else take (length l - Z.to_nat (- stop)) l.

Definition is_digit (c : ascii) : bool :=
  let n := nat_of_ascii c in ((48 <=? n) && (n <=? 57))%nat.

(** The class [[0-9A-Za-z]] *)
Definition is_alnum (c : ascii) : bool :=
  let n := nat_of_ascii c in
  (((48 <=? n) && (n <=? 57)) || ((65 <=? n) && (n <=? 90)) ||
   ((97 <=? n) && (n <=? 122)))%nat.

(** The longest prefix of characters of a class, and the rest. *)
Fixpoint span (p : ascii → bool) (s : string) : string * string :=
  match s with
  | EmptyString => (EmptyString, EmptyString)
  | String c s' =>
      if p c then let '(run, rest) := span p s' in (String c run, rest)
      else (EmptyString, s)
  end.

(** The lookahead [(?=\s+Reviews)] *)
Definition before_reviews (s : string) : bool :=
  let '(spaces, rest) := span PyStr.is_space s in
  PyLib.truthy spaces && PyStr.startswith "Reviews" rest.

(** A match of [\d+(,\d+)?(?=\s+Reviews)] that starts at the first
    character. *)
Definition count_at (s : string) : option string :=
  let '(digits, rest) := span is_digit s in
  if PyLib.truthy digits then
    match rest with
    | String "," rest' =>
        let '(more, rest'') := span is_digit rest' in
        if PyLib.truthy more && before_reviews rest''
        then Some (digits +:+ "," +:+ more)
        else None
    | _ => if before_reviews rest then Some digits else None
    end
  else None.

(** [re.search(r"\d+(,\d+)?(?=\s+Reviews)", reviews_text)], the text of the
    match. *)
Fixpoint search_count (s : string) : option string :=
  match count_at s with
  | Some m => Some m
  | None =>
      match s with
      | EmptyString => None
      | String _ s' => search_count s'
      end
  end.

(** A match of [/p/(itm[0-9A-Za-z]+)] that starts at the first character:
    the group. *)
Definition product_id_at (s : string) : option string :=
  match s with
  | String "/" (String "p" (String "/" (String "i" (String "t" (String "m" rest))))) =>
      let '(run, _) := span is_alnum rest in
      if PyLib.truthy run then Some ("itm" +:+ run) else None
  | _ => None
  end.

(** [re.findall(r"/p/(itm[0-9A-Za-z]+)", href)], its first element. *)
Fixpoint first_product_id (s : string) : option string :=
  match product_id_at s with
  | Some id => Some id
  | None =>
      match s with
      | EmptyString => None
      | String _ s' => first_product_id s'
      end
  end.

(** The search URL of [scrape_flipkart_products]. *)
Definition search_url (query : string) : string :=
  "https://www.flipkart.com/search?q=" +:+ PyLib.replace_char " " "+" query.

Definition product_link (href : string) : string :=
  if PyStr.startswith "http" href then href else "https://www.flipkart.com" +:+ href.

(** The loop over the search results: the rows so far, the effects so far
    of the whole call, and the items left. *)
Fixpoint scrape_items (browser : Browser) (review_count : Z) (items : list Item)
    (history : list Effect) (effects : list Effect) (products : list (list string))
  : (Error + list (list string)) * list Effect :=
  match items with
  | [] => (inr products, effects)
  | ItemError message :: rest =>
      scrape_items browser review_count rest history
        (effects ++ [Print ("Error occurred while processing item: " +:+ message)])
        products
  | ItemTexts title price rating reviews_text href :: rest =>
      let title := PyStr.strip title in
      let price := PyStr.strip price in
      let rating := PyStr.strip rating in
      let reviews_text := PyStr.strip reviews_text in
      let total_reviews := default "N/A" (search_count reviews_text) in
      let product_link := product_link href in
      let product_id := default "N/A" (first_product_id href) in
      if PyStr.contains "flipkart.com" product_link then
        match get_top_reviews browser (history ++ effects) product_link review_count with
        | (inl e, new) => (inl e, effects ++ new)
        | (inr top_reviews, new) =>
            scrape_items browser review_count rest history (effects ++ new)
              (products ++ [[product_id; title; rating; total_reviews; price; top_reviews]])
        end
      else
        scrape_items browser review_count rest history effects
          (products ++ [[product_id; title; rating; total_reviews; price;
                         "Invalid product URL"]])
  end.

(** [FlipkartScraper.scrape_flipkart_products] *)
Definition scrape_flipkart_products (browser : Browser) (history : list Effect)
    (query : string) (max_products review_count : Z)
  : (Error + list (list string)) * list Effect :=
  if negb (chrome_starts browser history) then (inl ChromeError, [ChromeStart])
  else
    match search browser (history ++ [ChromeStart]) (search_url query) with
    | SearchGetFails => (inl WebDriverError, [ChromeStart; Get (search_url query)])
    | SearchVisited popup_error items =>
        let effects :=
          [ChromeStart; Get (search_url query)] ++
          match popup_error with
          | Some e => [Print (popup_message e)]
          | None => []
          end in
        match items with
        | None => (inl WebDriverError, effects)
        | Some items =>
            match scrape_items browser review_count (slice_to items max_products)
                    history effects [] with
            | (inl e, effects) => (inl e, effects)
            | (inr products, effects) => (inr products, effects ++ [Quit])
            end
        end
    end.

(** [os.path] on a POSIX system. *)
Definition isabs (p : string) : bool := PyStr.startswith "/" p.

(** [p[:p.rfind('/') + 1]] *)
Fixpoint head_to_last_slash (p : string) : string :=
  match p with
  | EmptyString => EmptyString
  | String c p' =>
      match head_to_last_slash p' with
      | EmptyString => if Ascii.eqb c "/" then String c EmptyString else EmptyString
      | h => String c h
      end
  end.

Fixpoint all_slashes (s : string) : bool :=
  match s with
  | EmptyString => true
  | String c s' => Ascii.eqb c "/" && all_slashes s'
  end.

(** [s.rstrip('/')] *)
Fixpoint rstrip_slashes (s : string) : string :=
  match s with
  | EmptyString => EmptyString
  | String c s' =>
      match rstrip_slashes s' with
      | EmptyString => if Ascii.eqb c "/" then EmptyString else String c EmptyString
      | r => String c r
      end
  end.

Definition dirname (p : string) : string :=
  let head := head_to_last_slash p in
  if PyLib.truthy head && negb (all_slashes head) then rstrip_slashes head else head.

Fixpoint endswith_slash (s : string) : bool :=
  match s with
  | EmptyString => false
  | String c EmptyString => Ascii.eqb c "/"
  | String _ s' => endswith_slash s'
  end.

(** [os.path.join(a, b)] *)
Definition path_join (a b : string) : string :=
  if PyStr.startswith "/" b then b
  else if negb (PyLib.truthy a) || endswith_slash a then a +:+ b
  else a +:+ "/" +:+ b.

Definition csv_header : list string :=
  ["product_id"; "product_title"; "rating"; "total_reviews"; "price"; "top_reviews"].

(** [FlipkartScraper.save_to_csv]: the directory it makes, if any, and the
    rows it hands to the CSV writer for the file it opens. *)
Definition save_to_csv (output_dir : string) (data : list (list string))
    (filename : string) : list Effect :=
  if isabs filename then [WriteRows filename (csv_header :: data)]
  else if PyLib.truthy (dirname filename)
  then [MakeDirs (dirname filename); WriteRows filename (csv_header :: data)]
  else [WriteRows (path_join output_dir filename) (csv_header :: data)].

End Scraper.

(** ** Vocabulary for the scraper *)

(** Browsers started and browsers quit in a list of effects. *)
Definition count_starts (effects : list Scraper.Effect) : nat :=
  length (List.filter (λ e, match e with Scraper.ChromeStart => true | _ => false end)
            effects).

Definition count_quits (effects : list Scraper.Effect) : nat :=
  length (List.filter (λ e, match e with Scraper.Quit => true | _ => false end) effects).

Definition is_print (e : Scraper.Effect) : Prop :=
  match e with
  | Scraper.Print _ => True
  | _ => False
  end.

(** Every character of a string is of a class. *)
Fixpoint all_chars (p : ascii → bool) (s : string) : bool :=
  match s with
  | EmptyString => true
  | String c s' => p c && all_chars p s'
  end.

(** A non-empty run of characters of a class. *)
Definition run_of (p : ascii → bool) (s : string) : Prop :=
  s ≠ "" ∧ all_chars p s = true.

(** The texts [\d+(,\d+)?] matches. *)
Definition count_text (m : string) : Prop :=
  run_of Scraper.is_digit m ∨
  ∃ a b, run_of Scraper.is_digit a ∧ run_of Scraper.is_digit b ∧ m = a +:+ "," +:+ b.

(** A browser that always starts and finds the same page everywhere. *)
Definition sample_browser : Scraper.Browser :=
  Scraper.mkBrowser (λ _, true)
    (λ _ _, Scraper.Visited (Some "no such element") (Some ["Great"; "Great"; "Slow"]))
    (λ _ _, Scraper.SearchVisited None
              (Some [Scraper.ItemTexts " Phone A " "999" "4.5" "1,234 Ratings & 56 Reviews"
                       "/phone-a/p/itmABC123?pid=1";
                     Scraper.ItemError "no such element"])).

(** ** Vocabulary for the key manager *)

(** The JSON object the manager starts from: the parsed [API_KEYS], or the
    empty dict when the variable is unset, empty or not a JSON object. *)
Definition key_blob (json_loads : string → ModelLoader.JsonParse) (env : PyLib.Env)
  : gmap string ModelLoader.JsonValue :=
  fst (ModelLoader.read_blob json_loads env).

(** Where the value of a required key comes from: the JSON object when it
    has a usable value there, else the environment variable of that name
    when it is set and not empty. *)
Definition key_value (blob : gmap string ModelLoader.JsonValue) (env : PyLib.Env)
    (key : string) : option ModelLoader.JsonValue :=
  if ModelLoader.available (blob !! key) then blob !! key
  else match env !! key with
       | Some env_val =>
           if PyLib.truthy env_val then Some (ModelLoader.JString env_val) else blob !! key
       | None => blob !! key
       end.

(** A parser that reads every text as the same JSON object. *)
Definition sample_json (raw : string) : ModelLoader.JsonParse :=
  ModelLoader.JsonObject (<["GOOGLE_API_KEY" := ModelLoader.JString "blob-google-key"]> ∅).

Definition sample_key_env : PyLib.Env :=
  <["API_KEYS" := "{...}"]> (<["GOOGLE_API_KEY" := "env-google-key"]>
    (<["GROQ_API_KEY" := "env-groq-key"]> ∅)).

Definition sample_mgr : ModelLoader.ApiKeyManager :=
  ModelLoader.mkApiKeyManager
    (<["GOOGLE_API_KEY" := ModelLoader.JString "blob-google-key"]>
       (<["GROQ_API_KEY" := ModelLoader.JString "env-groq-key"]> ∅)).

Definition sample_llm_block : gmap string Config.Yaml :=
  <["google" := Config.YMap (<["provider" := Config.YStr "google"]>
                  (<["model_name" := Config.YStr "gemini-2.0-flash"]> ∅))]>
  (<["groq" := Config.YMap (<["provider" := Config.YStr "groq"]>
                  (<["model_name" := Config.YStr "llama-3"]>
                     (<["temperature" := Config.YInt 0]> ∅)))]> ∅).

Definition sample_config_entries : gmap string Config.Yaml :=
  <["llm" := Config.YMap sample_llm_block]>
  (<["embedding_model" :=
       Config.YMap (<["model_name" := Config.YStr "text-embedding-004"]> ∅)]>
   (<["astra_db" := Config.YMap (<["collection_name" := Config.YStr "products"]> ∅)]>
    (<["retriever" := Config.YMap (<["top_k" := Config.YInt 5]> ∅)]> ∅))).

Definition sample_loader : ModelLoader.ModelLoader :=
  ModelLoader.mkModelLoader sample_mgr (Config.YMap sample_config_entries).

Definition sample_retriever : RetrieverClass.Retriever :=
  RetrieverClass.mkRetriever sample_loader (Config.YMap sample_config_entries)
    (Retrieval.mkCredentials (Some "env-google-key") (Some "https://db") (Some "token")
       (Some "ks"))
    None None.

Definition sample_store : RetrieverClass.VectorStore :=
  RetrieverClass.AstraDBVectorStore
    (ModelLoader.GoogleGenerativeAIEmbeddings (Config.YStr "text-embedding-004")
       (ModelLoader.JString "blob-google-key"))
    (Config.YStr "products") (Some "https://db") (Some "token") (Some "ks").

Definition sample_fs : Config.FileSystem :=
  Config.mkFileSystem "/app/config/config.yaml" (λ p, PyStr.startswith "/" p)
    (λ p, "/app/" +:+ p) (λ _, true) (λ _, inr (Config.YMap sample_config_entries)).

Definition sample_full_env : PyLib.Env :=
  <["ASTRA_DB_API_ENDPOINT" := "https://db"]> (<["ASTRA_DB_APPLICATION_TOKEN" := "token"]>
    (<["ASTRA_DB_KEYSPACE" := "ks"]> sample_key_env)).

(** ** Vocabulary for the ingestion pipeline *)


(** The document the pipeline makes of a row: the reviews as text, the five
    other cells as metadata. *)
Definition row_document (row : gmap string string) : Document :=
  mkDocument
    (Some (<["product_id" := row !!! "product_id"]>
           (<["product_title" := row !!! "product_title"]>
            (<["rating" := row !!! "rating"]>
             (<["total_reviews" := row !!! "total_reviews"]>
              (<["price" := row !!! "price"]> ∅))))))
    (row !!! "top_reviews").

(** The value of a variable after [load_dotenv()]: the process environment
    first, the [.env] file second. *)
Definition merged_env (dotenv env : PyLib.Env) (var : string) : option string :=
  match env !! var with
  | Some v => Some v
  | None => dotenv !! var
  end.


Definition sample_env : PyLib.Env :=
  <["GOOGLE_API_KEY" := "g-key"]> (<["ASTRA_DB_API_ENDPOINT" := "https://db"]>
    (<["ASTRA_DB_KEYSPACE" := ""]> ∅)).

Definition sample_dotenv : PyLib.Env :=
  <["GOOGLE_API_KEY" := "other"]> (<["ASTRA_DB_APPLICATION_TOKEN" := "token"]> ∅).

(** * Properties *)

(** ** Strings *)

Section string_facts.
Import PyStr.
Local Arguments String.append : simpl nomatch.

Lemma append_assoc (a b c : string) : (a +:+ b) +:+ c = a +:+ (b +:+ c).
Proof. induction a as [|x a IH]; simpl; [done | by rewrite IH]. Qed.

Lemma append_empty_r (a : string) : a +:+ "" = a.
Proof. induction a as [|x a IH]; simpl; [done | by rewrite IH]. Qed.

Lemma startswith_occurs (p s : string) :
  startswith p s = true ↔ ∃ post, s = p +:+ post.
Proof.
  revert s. induction p as [|a p IH]; intros s; simpl.
  - split; [intros _; by exists s | done].
  - destruct s as [|b s].
    + split; [done | intros [post H]; discriminate].
    + destruct (Ascii.eqb_spec a b) as [->|Hne].
      * rewrite IH. split; intros [post H]; exists post; congruence.
      * split; [done | intros [post H]; congruence].
Qed.

Lemma contains_occurs (needle hay : string) :
  contains needle hay = true ↔ occurs needle hay.
Proof.
  induction hay as [|c hay IH]; simpl.
  - destruct (startswith needle "") eqn:E.
    + split; [intros _ | done].
      apply startswith_occurs in E as [post E]. by exists "", post.
    + split; [done |]. intros (pre & post & H).
      destruct pre; [|discriminate]. simpl in H.
      assert (startswith needle "" = true) by (apply startswith_occurs; eauto).
      congruence.
  - destruct (startswith needle (String c hay)) eqn:E.
    + split; [intros _ | done].
      apply startswith_occurs in E as [post E]. by exists "", post.
    + rewrite IH. split.
      * intros (pre & post & ->). by exists (String c pre), post.
      * intros (pre & post & H). destruct pre as [|x pre]; simpl in H.
        -- assert (startswith needle (String c hay) = true)
             by (apply startswith_occurs; eauto).
           congruence.
        -- injection H as _ ->. by exists pre, post.
Qed.

Lemma lower_app (a b : string) : lower (a +:+ b) = lower a +:+ lower b.
Proof. induction a as [|x a IH]; simpl; [done | by rewrite IH]. Qed.

Lemma lower_split (s a b : string) :
  lower s = a +:+ b → ∃ s1 s2, s = s1 +:+ s2 ∧ lower s1 = a ∧ lower s2 = b.
Proof.
  revert s. induction a as [|x a IH]; intros s H; simpl in H.
  - by exists "", s.
  - destruct s as [|c s]; [discriminate|]. simpl in H.
    injection H as Hc Hs. destruct (IH _ Hs) as (s1 & s2 & -> & H1 & H2).
    exists (String c s1), s2. simpl. by rewrite Hc, H1.
Qed.

(** The test [word in text.lower()] is the case-insensitive search. *)
Lemma contains_lower_any_case (word text : string) :
  contains word (lower text) = true ↔ occurs_any_case word text.
Proof.
  rewrite contains_occurs. split.
  - intros (pre & post & H).
    apply lower_split in H as (s1 & s23 & -> & H1 & H23).
    apply lower_split in H23 as (s2 & s3 & -> & H2 & H3).
    by exists s1, s2, s3.
  - intros (pre & mid & post & -> & Hmid).
    exists (lower pre), (lower post). by rewrite !lower_app, Hmid.
Qed.

Lemma is_upper_bound (n : nat) : is_upper n = true → n ≤ 222.
Proof.
  unfold is_upper. intros H. destruct (decide (n ≤ 222)); [done|]. exfalso.
  rewrite (proj2 (Nat.leb_gt n 90)), (proj2 (Nat.leb_gt n 222)) in H by lia.
  rewrite !andb_false_r in H. discriminate.
Qed.

Lemma lower_char_inv (c : ascii) (n : nat) :
  (97 ≤ n ≤ 122)%nat → lower_char c = ascii_of_nat n →
  c = ascii_of_nat n ∨ c = ascii_of_nat (n - 32).
Proof.
  intros Hn H. unfold lower_char in H.
  destruct (is_upper (nat_of_ascii c)) eqn:E.
  - right. apply (f_equal nat_of_ascii) in H.
    apply is_upper_bound in E.
    rewrite !nat_ascii_embedding in H by lia.
    rewrite <- (ascii_nat_embedding c). f_equal. lia.
  - by left.
Qed.

(** The letter-case variants of the affirmative token. *)
Lemma lower_yes_variants (s : string) :
  lower s = "yes" ↔
  s ∈ ["yes"; "yeS"; "yEs"; "yES"; "Yes"; "YeS"; "YEs"; "YES"].
Proof.
  split.
  - destruct s as [|a [|b [|c [|]]]]; simpl; try discriminate.
    intros H. injection H as Ha Hb Hc.
    apply (lower_char_inv a 121) in Ha; [|lia].
    apply (lower_char_inv b 101) in Hb; [|lia].
    apply (lower_char_inv c 115) in Hc; [|lia].
    destruct Ha as [-> | ->], Hb as [-> | ->], Hc as [-> | ->];
      simpl; set_solver.
  - rewrite !elem_of_cons, elem_of_nil.
    intros H. repeat destruct H as [-> | H]; try reflexivity. done.
Qed.

End string_facts.

(** ** The Document Formatter *)

Lemma format_loop_spec (fuel i : nat) (docs : list Document) (chunks : list string) :
  length docs ≤ i + fuel →
  format_loop fuel i docs chunks = (docs, chunks ++ map format_chunk (drop i docs)).
Proof.
  revert i chunks. induction fuel as [|fuel IH]; intros i chunks Hlen; simpl.
  - rewrite drop_ge by lia. by rewrite app_nil_r.
  - destruct (docs !! i) as [d|] eqn:Hd.
    + rewrite IH by lia. rewrite (drop_S _ _ _ Hd). simpl.
      by rewrite <- app_assoc.
    + apply lookup_ge_None in Hd. rewrite drop_ge by lia. by rewrite app_nil_r.
Qed.

Lemma format_chunk_block (d : Document) : format_chunk d = block_of d.
Proof.
  unfold format_chunk, block_of, four_field_block, field, meta_get.
  destruct (metadata d) as [meta|]; simpl; [done|].
  by rewrite !lookup_empty.
Qed.

Lemma format_docs_run_nonempty (ds : list Document) :
  ds ≠ [] →
  _format_docs_run (Some ds) = (PyStr.join SEPARATOR (map format_chunk ds), Some ds).
Proof.
  intros Hne. unfold _format_docs_run. destruct ds as [|d ds]; [done|].
  by rewrite format_loop_spec by lia.
Qed.

(** C7. For an empty sequence of Evidence Items, and for an absent one,
    the Document Formatter returns exactly the sentinel
    "No relevant documents found.". *)
Theorem format_docs_empty :
  _format_docs None = "No relevant documents found." ∧
  _format_docs (Some []) = "No relevant documents found.".
Proof. split; reflexivity. Qed.

(** C8. For a non-empty sequence of Evidence Items the output is the
    separator-joined list of blocks, one four-field block (title, price,
    rating, review text) per item and in the order of the items; the
    sequence handed in is the same on return. *)
Theorem format_docs_blocks_in_order (ds : list Document) :
  ds ≠ [] →
  ∃ blocks : list string,
    _format_docs (Some ds) = PyStr.join SEPARATOR blocks ∧
    length blocks = length ds ∧
    (∀ i d, ds !! i = Some d → blocks !! i = Some (block_of d)) ∧
    snd (_format_docs_run (Some ds)) = Some ds.
Proof.
  intros Hne. exists (map format_chunk ds).
  unfold _format_docs. rewrite (format_docs_run_nonempty ds Hne). simpl.
  split; [done|]. split; [by rewrite length_map|]. split; [|done].
  intros i d Hd. rewrite list_lookup_fmap, Hd. simpl.
  by rewrite format_chunk_block.
Qed.

Lemma format_docs_blocks_in_order_witness :
  ∃ blocks : list string,
    _format_docs (Some sample_docs) = PyStr.join SEPARATOR blocks ∧
    length blocks = length sample_docs ∧
    (∀ i d, sample_docs !! i = Some d → blocks !! i = Some (block_of d)) ∧
    snd (_format_docs_run (Some sample_docs)) = Some sample_docs.
Proof. apply (format_docs_blocks_in_order sample_docs). discriminate. Defined.

Example format_docs_sample :
  _format_docs (Some sample_docs) =
  "Title: Phone A" +:+ PyStr.nl +:+ "Price: 999" +:+ PyStr.nl +:+
  "Rating: N/A" +:+ PyStr.nl +:+ "Reviews:" +:+ PyStr.nl +:+ "solid battery" +:+
  PyStr.nl +:+ PyStr.nl +:+ "---" +:+ PyStr.nl +:+ PyStr.nl +:+
  "Title: N/A" +:+ PyStr.nl +:+ "Price: N/A" +:+ PyStr.nl +:+
  "Rating: N/A" +:+ PyStr.nl +:+ "Reviews:" +:+ PyStr.nl +:+ "fast".
Proof. vm_compute. reflexivity. Qed.

(** ** Running the monad *)

Ltac unfold_m :=
  unfold bind, ret, raise, print, emit, first_item, last_item, llm_invoke,

    load_retriever, retriever_invoke, save_checkpoint, load_checkpoint, path_lookup.

Lemma wants_retrieval_spec (text : string) :
  wants_retrieval text = true ↔ mentions_keyword text.
Proof.
  unfold wants_retrieval, mentions_keyword. rewrite existsb_exists.
  split; intros (word & Hin & H); exists word.
  - by rewrite list_elem_of_In, <- contains_lower_any_case.
  - by rewrite <- list_elem_of_In, contains_lower_any_case.
Qed.

Lemma wants_retrieval_false (text : string) :
  ¬ mentions_keyword text → wants_retrieval text = false.
Proof.
  intros H. destruct (wants_retrieval text) eqn:E; [|done].
  by apply wants_retrieval_spec in E.
Qed.

Lemma tool_marker_has_tool : PyStr.contains "TOOL" TOOL_MARKER = true.
Proof. reflexivity. Qed.

Lemma ai_assistant_tool C (state : AgentState) w m :
  last state = Some m → wants_retrieval (content m) = true →
  _ai_assistant C state w =
    (inr [HumanMessage TOOL_MARKER],
     mkWorld (events w ++ [Print "--- CALL ASSISTANT ---"]) (checkpoints w)).
Proof.
  intros Hlast Hkw. unfold _ai_assistant. unfold_m. simpl.
  rewrite Hlast. simpl. by rewrite Hkw.
Qed.

Lemma ai_assistant_direct C (state : AgentState) w m :
  last state = Some m → wants_retrieval (content m) = false →
  _ai_assistant C state w =
    (match llm C (events w ++ [Print "--- CALL ASSISTANT ---"]) (direct_prompt (content m)) with
     | Some answer => inr [HumanMessage answer]
     | None => inl LLMError
     end,
     mkWorld (events w ++ [Print "--- CALL ASSISTANT ---"; LLMCall (direct_prompt (content m))])
       (checkpoints w)).
Proof.
  intros Hlast Hkw. unfold _ai_assistant. unfold_m. simpl.
  rewrite Hlast. simpl. rewrite Hkw. unfold_m. simpl.
  destruct (llm C _ _); simpl; by rewrite <- app_assoc.
Qed.

Lemma after_assistant_snoc (state : AgentState) m w :
  after_assistant (state ++ [m]) w =
    (inr (if PyStr.contains "TOOL" (content m) then Goto Retriever else END), w).
Proof.
  unfold after_assistant, assistant_route. unfold_m. rewrite last_snoc.
  unfold ret. destruct (PyStr.contains "TOOL" (content m)); reflexivity.
Qed.

Lemma vector_retriever_run C (state : AgentState) w m :
  last state = Some m →
  retriever_loads C (events w ++ [Print "--- RETRIEVER ---"]) = true →
  _vector_retriever C state w =
    (match vector_store C (events w ++ [Print "--- RETRIEVER ---"; RetrieverLoad;
                                        Print "Retriever loaded successfully."])
             (content m) with
     | Some docs => inr [HumanMessage (_format_docs (Some docs))]
     | None => inl RetrieverError
     end,
     mkWorld (events w ++ [Print "--- RETRIEVER ---"; RetrieverLoad;
                           Print "Retriever loaded successfully.";
                           RetrieverCall (content m)]) (checkpoints w)).
Proof.
  intros Hlast Hload. unfold _vector_retriever. unfold_m. simpl.
  rewrite Hlast. simpl. rewrite Hload. unfold_m. simpl.
  rewrite <- ?app_assoc. simpl.
  destruct (vector_store C _ _); simpl; by rewrite <- ?app_assoc.
Qed.

Lemma vector_retriever_load_fails C (state : AgentState) w m :
  last state = Some m →
  retriever_loads C (events w ++ [Print "--- RETRIEVER ---"]) = false →
  _vector_retriever C state w =
    (inl RetrieverLoadError,
     mkWorld (events w ++ [Print "--- RETRIEVER ---"; RetrieverLoad]) (checkpoints w)).
Proof.
  intros Hlast Hload. unfold _vector_retriever. unfold_m. simpl.
  rewrite Hlast. simpl. rewrite Hload. by rewrite <- ?app_assoc.
Qed.

Lemma grade_documents_run C (state : AgentState) w q d :
  state !! 0 = Some q → last state = Some d →
  _grade_documents C state w =
    (match llm C (events w ++ [Print "--- GRADER ---"])
             (grader_prompt (content q) (content d)) with
     | Some score =>
         inr (if PyStr.contains "yes" (PyStr.lower score) then "generator" else "rewriter")
     | None => inl LLMError
     end,
     mkWorld (events w ++ [Print "--- GRADER ---";
                           LLMCall (grader_prompt (content q) (content d))]) (checkpoints w)).
Proof.
  intros Hq Hd. unfold _grade_documents. unfold_m. simpl.
  rewrite Hq, Hd. simpl.
  destruct (llm C _ _); simpl; by rewrite <- app_assoc.
Qed.

Lemma generate_run C (state : AgentState) w q d :
  state !! 0 = Some q → last state = Some d →
  _generate C state w =
    (match llm C (events w ++ [Print "--- GENERATE ---"])
             (product_bot_prompt C (content d) (content q)) with
     | Some response => inr [HumanMessage response]
     | None => inl LLMError
     end,
     mkWorld (events w ++ [Print "--- GENERATE ---";
                           LLMCall (product_bot_prompt C (content d) (content q))])
       (checkpoints w)).
Proof.
  intros Hq Hd. unfold _generate. unfold_m. simpl.
  rewrite Hq, Hd. simpl.
  destruct (llm C _ _); simpl; by rewrite <- app_assoc.
Qed.

Lemma rewrite_run C (state : AgentState) w q :
  state !! 0 = Some q →
  _rewrite C state w =
    (match llm C (events w ++ [Print "--- REWRITE ---"]) (rewrite_prompt (content q)) with
     | Some new_q => inr [HumanMessage new_q]
     | None => inl LLMError
     end,
     mkWorld (events w ++ [Print "--- REWRITE ---"; LLMCall (rewrite_prompt (content q))])
       (checkpoints w)).
Proof.
  intros Hq. unfold _rewrite. unfold_m. simpl. rewrite Hq. simpl.
  destruct (llm C _ _); simpl; by rewrite <- app_assoc.
Qed.

Lemma path_lookup_generator w :
  path_lookup "generator" grade_path_map w = (inr (Goto Generator), w).
Proof. reflexivity. Qed.

Lemma path_lookup_rewriter w :
  path_lookup "rewriter" grade_path_map w = (inr (Goto Rewriter), w).
Proof. reflexivity. Qed.

Lemma lookup_0_snoc {A} (l : list A) (x a : A) :
  l !! 0 = Some a → (l ++ [x]) !! 0 = Some a.
Proof. intros H. by rewrite lookup_app_l by (by apply lookup_lt_Some in H). Qed.

(** ** The Relevance Grader *)

(** C1. When the grader's language-model response contains "yes" in any
    letter case, [_grade_documents] returns "generator" and the engine goes
    to the Generator node; for every other response, the empty string
    included, it returns "rewriter" and the engine goes to the Rewriter
    node. *)
Theorem grader_verdict_rule C (state : AgentState) w q d score :
  state !! 0 = Some q → last state = Some d →
  llm C (events w ++ [Print "--- GRADER ---"]) (grader_prompt (content q) (content d))
    = Some score →
  let w' := mkWorld (events w ++ [Print "--- GRADER ---";
                                  LLMCall (grader_prompt (content q) (content d))])
              (checkpoints w) in
  (affirmative score →
     _grade_documents C state w = (inr "generator", w') ∧
     next_target C Retriever state w = (inr (Goto Generator), w')) ∧
  (¬ affirmative score →
     _grade_documents C state w = (inr "rewriter", w') ∧
     next_target C Retriever state w = (inr (Goto Rewriter), w')) ∧
  ¬ affirmative "".
Proof.
  intros Hq Hd Hllm w'. unfold affirmative.
  pose proof (grade_documents_run C state w q d Hq Hd) as Hrun.
  rewrite Hllm in Hrun. fold w' in Hrun.
  split; [|split].
  - intros Hyes. apply contains_lower_any_case in Hyes.
    rewrite Hyes in Hrun. split; [done|].
    unfold next_target, bind. rewrite Hrun. apply path_lookup_generator.
  - intros Hno.
    destruct (PyStr.contains "yes" (PyStr.lower score)) eqn:E.
    { by apply contains_lower_any_case in E. }
    split; [done|].
    unfold next_target, bind. rewrite Hrun. apply path_lookup_rewriter.
  - rewrite <- contains_lower_any_case. by vm_compute.
Qed.

Lemma grader_verdict_rule_witness :
  let C := constant_llm "Yes, they are." [] in
  let w' := mkWorld [Print "--- GRADER ---";
                     LLMCall (grader_prompt "What is the price of iPhone 15?" NO_DOCS)] ∅ in
  _grade_documents C sample_state fresh_world = (inr "generator", w') ∧
  next_target C Retriever sample_state fresh_world = (inr (Goto Generator), w').
Proof.
  intros C w'.
  refine (proj1 (grader_verdict_rule C sample_state fresh_world
                   (HumanMessage "What is the price of iPhone 15?")
                   (HumanMessage NO_DOCS) "Yes, they are." _ _ _) _).
  - reflexivity.
  - reflexivity.
  - reflexivity.
  - exists "", "Yes", ", they are.". split; reflexivity.
Defined.

Example grader_empty_response :
  fst (_grade_documents (constant_llm "" []) sample_state fresh_world) = inr "rewriter".
Proof. reflexivity. Qed.

Example grader_mixed_case_response :
  fst (_grade_documents (constant_llm "I'd say YeS" []) sample_state fresh_world)
    = inr "generator".
Proof. reflexivity. Qed.

(** ** The Intent Router *)

Lemma step_assistant_tool C tid (state : AgentState) w m :
  last state = Some m → wants_retrieval (content m) = true →
  step C tid Assistant state w =
    (inr (Goto Retriever, state ++ [HumanMessage TOOL_MARKER]),
     mkWorld (events w ++ [Print "--- CALL ASSISTANT ---"])
       (<[tid := state ++ [HumanMessage TOOL_MARKER]]> (checkpoints w))).
Proof.
  intros Hlast Hkw. unfold step, bind, node_action.
  rewrite (ai_assistant_tool C state w m Hlast Hkw).
  unfold add_messages, next_target. rewrite after_assistant_snoc.
  cbn [content]. rewrite tool_marker_has_tool. reflexivity.
Qed.

Lemma step_assistant_direct C tid (state : AgentState) w m answer :
  last state = Some m → wants_retrieval (content m) = false →
  llm C (events w ++ [Print "--- CALL ASSISTANT ---"]) (direct_prompt (content m))
    = Some answer →
  step C tid Assistant state w =
    (inr (if PyStr.contains "TOOL" answer then Goto Retriever else END,
          state ++ [HumanMessage answer]),
     mkWorld (events w ++ [Print "--- CALL ASSISTANT ---"; LLMCall (direct_prompt (content m))])
       (<[tid := state ++ [HumanMessage answer]]> (checkpoints w))).
Proof.
  intros Hlast Hkw Hllm. unfold step, bind, node_action.
  rewrite (ai_assistant_direct C state w m Hlast Hkw), Hllm.
  unfold add_messages, next_target. rewrite after_assistant_snoc.
  reflexivity.
Qed.

Lemma step_assistant_direct_events C tid (state : AgentState) w m :
  last state = Some m → wants_retrieval (content m) = false →
  ∃ r w', step C tid Assistant state w = (r, w') ∧
    extends_events w
      [Print "--- CALL ASSISTANT ---"; LLMCall (direct_prompt (content m))] w'.
Proof.
  intros Hlast Hkw.
  destruct (llm C (events w ++ [Print "--- CALL ASSISTANT ---"])
              (direct_prompt (content m))) as [answer|] eqn:Hllm.
  - eexists _, _. split; [by apply step_assistant_direct|]. reflexivity.
  - eexists _, _. split.
    + unfold step, bind, node_action.
      rewrite (ai_assistant_direct C state w m Hlast Hkw), Hllm. reflexivity.
    + reflexivity.
Qed.

(** C2. When the latest Turn's text contains "price", "review" or
    "product", compared case-insensitively, the routing step appends the
    tool marker, the engine goes from the Assistant node to the Retriever
    node, and that node calls the retrieval collaborator: it asks it for a
    retriever and, once it has one, queries it.  When the text contains none
    of the keywords, the routing step makes one language-model call and no
    call of the retrieval collaborator. *)
Theorem router_keyword_rule C tid (state : AgentState) w m :
  last state = Some m →
  (mentions_keyword (content m) →
     let state1 := state ++ [HumanMessage TOOL_MARKER] in
     let w1 := mkWorld (events w ++ [Print "--- CALL ASSISTANT ---"])
                 (<[tid := state1]> (checkpoints w)) in
          step C tid Assistant state w = (inr (Goto Retriever, state1), w1) ∧
     ∃ r w2 rest, node_action C Retriever state1 w1 = (r, w2) ∧
       extends_events w1 (Print "--- RETRIEVER ---" :: RetrieverLoad :: rest) w2 ∧
       (retriever_loads C (events w1 ++ [Print "--- RETRIEVER ---"]) = true →
        rest = [Print "Retriever loaded successfully."; RetrieverCall TOOL_MARKER])) ∧
  (¬ mentions_keyword (content m) →
     ∃ r w' new, step C tid Assistant state w = (r, w') ∧
       extends_events w new w' ∧
       new = [Print "--- CALL ASSISTANT ---"; LLMCall (direct_prompt (content m))] ∧
       (RetrieverLoad ∉ new) ∧ (∀ query, RetrieverCall query ∉ new)).
Proof.
  intros Hlast. split.
  - intros Hkw%wants_retrieval_spec state1 w1. split.
    + by apply (step_assistant_tool C tid state w m).
        + assert (last state1 = Some (HumanMessage TOOL_MARKER)) as Hlast1
        by apply last_snoc.
      destruct (retriever_loads C (events w1 ++ [Print "--- RETRIEVER ---"])) eqn:Hload.
      * eexists _, _, _. split; [|split].
        -- by apply (vector_retriever_run C state1 w1 (HumanMessage TOOL_MARKER)).
        -- reflexivity.
        -- done.
      * eexists _, _, []. split; [|split].
        -- by apply (vector_retriever_load_fails C state1 w1 (HumanMessage TOOL_MARKER)).
        -- reflexivity.
        -- done.
  - intros Hkw%wants_retrieval_false.
    destruct (step_assistant_direct_events C tid state w m Hlast Hkw)
      as (r & w' & Hstep & Hev).
    exists r, w', [Print "--- CALL ASSISTANT ---"; LLMCall (direct_prompt (content m))].
    repeat split; try done.
    + intros Hin.
      repeat (apply elem_of_cons in Hin as [Hin|Hin]; [discriminate|]).
      by apply elem_of_nil in Hin.
    + intros query Hin.
      repeat (apply elem_of_cons in Hin as [Hin|Hin]; [discriminate|]).
      by apply elem_of_nil in Hin.
Qed.

Lemma router_keyword_rule_witness :
  let C := constant_llm "Hi there." sample_docs in
  (let state1 := [HumanMessage "Any REVIEWS of it?"; HumanMessage TOOL_MARKER] in
   let w1 := mkWorld [Print "--- CALL ASSISTANT ---"] (<[default_thread := state1]> ∅) in
      step C default_thread Assistant [HumanMessage "Any REVIEWS of it?"] fresh_world
     = (inr (Goto Retriever, state1), w1) ∧
   ∃ r w2 rest, node_action C Retriever state1 w1 = (r, w2) ∧
     extends_events w1 (Print "--- RETRIEVER ---" :: RetrieverLoad :: rest) w2 ∧
     (retriever_loads C (events w1 ++ [Print "--- RETRIEVER ---"]) = true →
      rest = [Print "Retriever loaded successfully."; RetrieverCall TOOL_MARKER])) ∧
  (∃ r w' new,
     step C default_thread Assistant [HumanMessage "Hello"] fresh_world = (r, w') ∧
     extends_events fresh_world new w' ∧
     new = [Print "--- CALL ASSISTANT ---"; LLMCall (direct_prompt "Hello")] ∧
     (RetrieverLoad ∉ new) ∧ (∀ query, RetrieverCall query ∉ new)).
Proof.
  intros C. split.
  - refine (proj1 (router_keyword_rule C default_thread
                     [HumanMessage "Any REVIEWS of it?"] fresh_world
                     (HumanMessage "Any REVIEWS of it?") _) _).
    + reflexivity.
    + exists "review". split; [set_solver|].
      exists "Any ", "REVIEW", "S of it?". split; reflexivity.
  - refine (proj2 (router_keyword_rule C default_thread
                     [HumanMessage "Hello"] fresh_world (HumanMessage "Hello") _) _).
    + reflexivity.
    + rewrite <- wants_retrieval_spec. vm_compute. discriminate.
Defined.

(** ** The direct-answer path *)

Lemma hello_has_no_keyword : ¬ mentions_keyword "Hello".
Proof. rewrite <- wants_retrieval_spec. by vm_compute. Qed.

(** C3, as the spec states it, fails: the run on "Hello" returns the answer
    after the Assistant node alone, with the inline direct-answer prompt; the
    Generator node and the product-assistant template are not used. *)
Lemma direct_answer_skips_generator : ¬ direct_answer_by_generator_node.
Proof.
  intros Hclaim.
  specialize (Hclaim (constant_llm "Hi there." sample_docs) 25 "Hello" default_thread
                "Hi there."
                (mkWorld [Print "--- CALL ASSISTANT ---"; LLMCall (direct_prompt "Hello")]
                   (<[default_thread := [HumanMessage "Hello"; HumanMessage "Hi there."]]>
                      (<[default_thread := [HumanMessage "Hello"]]> ∅)))
                hello_has_no_keyword eq_refl).
  cbn [events] in Hclaim.
  repeat (apply elem_of_cons in Hclaim as [Hclaim|Hclaim]; [discriminate|]).
  by apply elem_of_nil in Hclaim.
Qed.

(** C3, amended. When the latest Turn's text contains no routing keyword,
    the Assistant node itself produces the answer, by one language-model
    call on its own direct-answer prompt, which holds the question and no
    context; when that answer does not contain "TOOL" the engine goes from
    the Assistant node straight to the terminal state, and the Generator
    node is not entered. *)
Theorem direct_answer_in_router C tid limit (state : AgentState) w m answer :
  last state = Some m →
  ¬ mentions_keyword (content m) →
  llm C (events w ++ [Print "--- CALL ASSISTANT ---"]) (direct_prompt (content m))
    = Some answer →
  ¬ PyStr.occurs "TOOL" answer →
  let state1 := state ++ [HumanMessage answer] in
  let w1 := mkWorld (events w ++ [Print "--- CALL ASSISTANT ---";
                                  LLMCall (direct_prompt (content m))])
              (<[tid := state1]> (checkpoints w)) in
  step C tid Assistant state w = (inr (END, state1), w1) ∧
  execute C (S limit) tid Assistant state w = (inr state1, w1).
Proof.
  intros Hlast Hkw%wants_retrieval_false Hllm Htool state1 w1.
  assert (step C tid Assistant state w = (inr (END, state1), w1)) as Hstep.
  { rewrite (step_assistant_direct C tid state w m answer Hlast Hkw Hllm).
    destruct (PyStr.contains "TOOL" answer) eqn:E; [|done].
    by apply contains_occurs in E. }
  split; [done|]. simpl. unfold bind. by rewrite Hstep.
Qed.

Lemma direct_answer_in_router_witness :
  let C := constant_llm "Hi there." sample_docs in
  let state1 := [HumanMessage "Hello"; HumanMessage "Hi there."] in
  let w1 := mkWorld [Print "--- CALL ASSISTANT ---"; LLMCall (direct_prompt "Hello")]
              (<[default_thread := state1]> ∅) in
  step C default_thread Assistant [HumanMessage "Hello"] fresh_world
    = (inr (END, state1), w1) ∧
  execute C 25 default_thread Assistant [HumanMessage "Hello"] fresh_world
    = (inr state1, w1).
Proof.
  intros C state1 w1.
  apply (direct_answer_in_router C default_thread 24 [HumanMessage "Hello"] fresh_world
           (HumanMessage "Hello") "Hi there.").
  - reflexivity.
  - rewrite <- wants_retrieval_spec. vm_compute. discriminate.
  - reflexivity.
  - rewrite <- contains_occurs. vm_compute. discriminate.
Defined.

(** ** The Query Rewriter *)

(** C4. A Rewriting step that completes always hands over to the Assistant
    node (Routing); the rewritten question is the new latest entry of the
    Conversation State, after the entries that were there; and it is the
    language model's answer to the rewrite instruction built from the first
    entry, whatever the latest entry was. *)
Theorem rewrite_returns_to_routing C tid (state : AgentState) w q new_q :
  state !! 0 = Some q →
  llm C (events w ++ [Print "--- REWRITE ---"]) (rewrite_prompt (content q)) = Some new_q →
  let state1 := state ++ [HumanMessage new_q] in
  step C tid Rewriter state w =
    (inr (Goto Assistant, state1),
     mkWorld (events w ++ [Print "--- REWRITE ---"; LLMCall (rewrite_prompt (content q))])
       (<[tid := state1]> (checkpoints w))) ∧
  last state1 = Some (HumanMessage new_q) ∧
  state1 !! 0 = Some q.
Proof.
  intros Hq Hllm state1. split; [|split].
  - unfold step, bind, node_action.
    rewrite (rewrite_run C state w q Hq), Hllm. reflexivity.
  - apply last_snoc.
  - by apply lookup_0_snoc.
Qed.

Lemma rewrite_returns_to_routing_witness :
  let C := constant_llm "price of the iPhone 15 in USD" [] in
  let q := HumanMessage "What is the price of iPhone 15?" in
  let state1 := sample_state ++ [HumanMessage "price of the iPhone 15 in USD"] in
  step C default_thread Rewriter sample_state fresh_world =
    (inr (Goto Assistant, state1),
     mkWorld [Print "--- REWRITE ---";
              LLMCall (rewrite_prompt "What is the price of iPhone 15?")]
       (<[default_thread := state1]> ∅)) ∧
  last state1 = Some (HumanMessage "price of the iPhone 15 in USD") ∧
  state1 !! 0 = Some q.
Proof.
  intros C q state1.
  apply (rewrite_returns_to_routing C default_thread sample_state fresh_world q
           "price of the iPhone 15 in USD").
  - reflexivity.
  - reflexivity.
Defined.

(** ** The Conversation State is append-only *)

Lemma node_action_single C n (state : AgentState) w update w' :
  node_action C n state w = (inr update, w') → ∃ m, update = [m].
Proof.
  destruct n; simpl;
    unfold _ai_assistant, _vector_retriever, _generate, _rewrite; unfold_m; simpl;
    intros H; repeat (case_match; simplify_eq/=); eauto.
Qed.

Lemma step_inv C tid n (state : AgentState) w target state' w' :
  step C tid n state w = (inr (target, state'), w') →
  ∃ update w1 w2,
    node_action C n state w = (inr update, w1) ∧
    state' = add_messages state update ∧
    next_target C n state' w1 = (inr target, w2) ∧
    w' = mkWorld (events w2) (<[tid := state']> (checkpoints w2)).
Proof.
  unfold step, bind. intros H.
  destruct (node_action C n state w) as [[e|update] w1] eqn:Hnode; [done|].
  destruct (next_target C n (add_messages state update) w1) as [[e|tgt] w2] eqn:Hnext;
    [done|].
  unfold save_checkpoint, ret in H. simplify_eq/=.
  by eexists _, _, _.
Qed.

(** C9. Every step of the engine that completes, whichever node it runs
    (Assistant, Retriever, Generator or Rewriter), extends the Conversation
    State by exactly one Turn at the end and leaves every earlier entry as
    it was; the state checkpointed for the thread is that extended state. *)
Theorem nodes_append_one_turn C tid n (state : AgentState) w target state' w' :
  step C tid n state w = (inr (target, state'), w') →
  ∃ m, state' = state ++ [m] ∧
       length state' = S (length state) ∧
       (∀ i, i < length state → state' !! i = state !! i) ∧
       checkpoints w' !! tid = Some state'.
Proof.
  intros (update & w1 & w2 & Hnode & -> & _ & ->)%step_inv.
  apply node_action_single in Hnode as [m ->].
  exists m. unfold add_messages. split; [done|]. split; [|split].
  - rewrite length_app. simpl. lia.
  - intros i Hi. by rewrite lookup_app_l.
  - simpl. apply lookup_insert_eq.
Qed.

Lemma nodes_append_one_turn_witness :
  ∃ m, sample_state ++ [HumanMessage "It costs 999."] = sample_state ++ [m] ∧
       length (sample_state ++ [HumanMessage "It costs 999."]) = S (length sample_state) ∧
       (∀ i, i < length sample_state →
             (sample_state ++ [HumanMessage "It costs 999."]) !! i = sample_state !! i) ∧
       checkpoints
         (mkWorld [Print "--- GENERATE ---";
                   LLMCall (plain_template NO_DOCS "What is the price of iPhone 15?")]
            (<[default_thread := sample_state ++ [HumanMessage "It costs 999."]]> ∅))
         !! default_thread = Some (sample_state ++ [HumanMessage "It costs 999."]).
Proof.
  apply (nodes_append_one_turn (constant_llm "It costs 999." []) default_thread Generator
           sample_state fresh_world END).
  reflexivity.
Defined.

(** ** The tool sentinel *)

(** C10. The edge that leaves the Assistant node goes to the Retriever node
    exactly when the latest Turn's text contains "TOOL" somewhere; so a
    directly generated answer that contains "TOOL" sends the engine to the
    Retriever node although the question held no routing keyword. *)
Theorem tool_sentinel_false_positive :
  (∀ (state : AgentState) m w,
     after_assistant (state ++ [m]) w = (inr (Goto Retriever), w)
     ↔ PyStr.occurs "TOOL" (content m)) ∧
  ∃ C query answer w',
    ¬ mentions_keyword query ∧
    llm C [Print "--- CALL ASSISTANT ---"] (direct_prompt query) = Some answer ∧
    step C default_thread Assistant [HumanMessage query] fresh_world
      = (inr (Goto Retriever, [HumanMessage query; HumanMessage answer]), w') ∧
    events w' = [Print "--- CALL ASSISTANT ---"; LLMCall (direct_prompt query)].
Proof.
  split.
  - intros state m w. rewrite after_assistant_snoc, <- contains_occurs.
    destruct (PyStr.contains "TOOL" (content m)); split; intros H; by simplify_eq.
  - exists (constant_llm tool_answer []), "Hello", tool_answer.
    exists (mkWorld [Print "--- CALL ASSISTANT ---"; LLMCall (direct_prompt "Hello")]
              (<[default_thread := [HumanMessage "Hello"; HumanMessage tool_answer]]> ∅)).
    split; [apply hello_has_no_keyword|].
    split; [reflexivity|]. split; reflexivity.
Qed.

(** ** The rewrite loop *)

Lemma rewrites_app (l1 l2 : list Event) : rewrites (l1 ++ l2) = rewrites l1 + rewrites l2.
Proof. unfold rewrites. by rewrite List.filter_app, length_app. Qed.

Section rewrite_loop.
Variable C : Collaborators.

(** Every answer of the language model lacks the affirmative token and
    holds a routing keyword; the vector store always answers. *)
Hypothesis llm_unhelpful : ∀ log prompt, ∃ answer,
  llm C log prompt = Some answer ∧
  wants_retrieval answer = true ∧
  PyStr.contains "yes" (PyStr.lower answer) = false.
Hypothesis store_loads : ∀ log, retriever_loads C log = true.
Hypothesis store_answers : ∀ log query, is_Some (vector_store C log query).

Lemma cycle_retriever tid (state : AgentState) w q m :
  state !! 0 = Some q → last state = Some m →
  ∃ context w',
    step C tid Retriever state w = (inr (Goto Rewriter, state ++ [context]), w') ∧
    rewrites (events w') = rewrites (events w).
Proof.
  intros Hq Hlast.
  destruct (store_answers
              (events w ++ [Print "--- RETRIEVER ---"; RetrieverLoad;
                            Print "Retriever loaded successfully."])
              (content m)) as [docs Hdocs].
  set (context := HumanMessage (_format_docs (Some docs))).
  set (w1 := mkWorld (events w ++ [Print "--- RETRIEVER ---"; RetrieverLoad;
                                   Print "Retriever loaded successfully.";
                                   RetrieverCall (content m)]) (checkpoints w)).
  destruct (llm_unhelpful (events w1 ++ [Print "--- GRADER ---"])
              (grader_prompt (content q) (content context)))
    as (score & Hscore & _ & Hno).
  eexists context, _. split.
  - unfold step, bind, node_action.
    rewrite (vector_retriever_run C state w m Hlast (store_loads _)), Hdocs.
    fold context w1. unfold add_messages, next_target, bind.
    rewrite (grade_documents_run C (state ++ [context]) w1 q context
               (lookup_0_snoc _ _ _ Hq) (last_snoc _ _)).
    rewrite Hscore, Hno. rewrite path_lookup_rewriter. reflexivity.
  - cbn [events]. unfold w1. cbn [events].
    rewrite !rewrites_app. change (rewrites [_; _; _; _]) with 0.
    change (rewrites [_; _]) with 0. lia.
Qed.

Lemma cycle_rewriter tid (state : AgentState) w q :
  state !! 0 = Some q →
  ∃ new_q w',
    step C tid Rewriter state w = (inr (Goto Assistant, state ++ [new_q]), w') ∧
    wants_retrieval (content new_q) = true ∧
    rewrites (events w') = S (rewrites (events w)).
Proof.
  intros Hq.
  destruct (llm_unhelpful (events w ++ [Print "--- REWRITE ---"])
              (rewrite_prompt (content q))) as (new_q & Hnew & Hkw & _).
  eexists (HumanMessage new_q), _. split; [|split].
  - unfold step, bind, node_action.
    rewrite (rewrite_run C state w q Hq), Hnew. reflexivity.
  - done.
  - cbn [events]. rewrite rewrites_app. change (rewrites [_; _]) with 1. lia.
Qed.

(** Whatever the budget, the executor uses it up inside the loop, and a
    third of the steps it took were Rewriting steps. *)
Lemma loop_uses_any_budget (limit : nat) :
  ∀ tid (state : AgentState) w q m,
    state !! 0 = Some q → last state = Some m → wants_retrieval (content m) = true →
    ∃ w', execute C limit tid Assistant state w = (inl GraphRecursionError, w') ∧
          rewrites (events w') = rewrites (events w) + limit / 3.
Proof.
  induction (lt_wf limit) as [limit _ IH].
  intros tid state w q m Hq Hlast Hkw.
  destruct limit as [|limit].
  { exists w. split; [done|]. simpl. lia. }
  cbn [execute]. unfold bind at 1.
  rewrite (step_assistant_tool C tid state w m Hlast Hkw).
  set (state1 := state ++ [HumanMessage TOOL_MARKER]).
  set (w1 := mkWorld _ _).
  assert (rewrites (events w1) = rewrites (events w)) as Hw1.
  { unfold w1. cbn [events]. rewrite rewrites_app.
    change (rewrites [_]) with 0. lia. }
  destruct limit as [|limit].
  { exists w1. split; [done|]. rewrite Hw1. simpl. lia. }
  cbn [execute]. unfold bind at 1.
  destruct (cycle_retriever tid state1 w1 q (HumanMessage TOOL_MARKER)
              (lookup_0_snoc _ _ _ Hq) (last_snoc _ _))
    as (context & w2 & Hstep2 & Hw2).
  rewrite Hstep2.
  destruct limit as [|limit].
  { exists w2. split; [done|]. rewrite Hw2, Hw1. simpl. lia. }
  cbn [execute]. unfold bind at 1.
  destruct (cycle_rewriter tid (state1 ++ [context]) w2 q
              (lookup_0_snoc _ _ _ (lookup_0_snoc _ _ _ Hq)))
    as (new_q & w3 & Hstep3 & Hkw3 & Hw3).
  rewrite Hstep3.
  destruct (IH limit ltac:(lia) tid ((state1 ++ [context]) ++ [new_q]) w3 q new_q
              (lookup_0_snoc _ _ _ (lookup_0_snoc _ _ _ (lookup_0_snoc _ _ _ Hq)))
              (last_snoc _ _) Hkw3) as (w' & Hexec & Hw').
  exists w'. split; [done|].
  rewrite Hw', Hw3, Hw2, Hw1.
  change (S (S (S limit))) with (3 + limit).
  replace (3 + limit) with (limit + 1 * 3) by lia.
  rewrite Nat.div_add by lia. lia.
Qed.

Lemma run_uses_any_budget (limit : nat) (query tid : string) w :
  wants_retrieval query = true →
  ∃ w', run C limit query tid w = (inl GraphRecursionError, w') ∧
        rewrites (events w') = rewrites (events w) + limit / 3.
Proof.
  intros Hkw. unfold run, app_invoke, bind at 1 2, load_checkpoint.
  unfold bind at 1, save_checkpoint. unfold add_messages.
  set (saved := default [] (checkpoints w !! tid)).
  set (w0 := mkWorld _ _).
  assert (∃ q, (saved ++ [HumanMessage query]) !! 0 = Some q) as [q Hq].
  { destruct saved as [|q saved']; simpl; eauto. }
  destruct (loop_uses_any_budget limit tid (saved ++ [HumanMessage query]) w0 q
              (HumanMessage query) Hq (last_snoc _ _) Hkw) as (w' & Hexec & Hw').
  exists w'. by rewrite Hexec.
Qed.

End rewrite_loop.

(** C6. Nothing in the engine bounds the rewrite loop: there are
    collaborator outputs (a grader response without affirmative token and a
    rewritten question with a routing keyword, every time) under which the
    run, whatever step budget the executor is given, never reaches the
    terminal state, and goes through the cycle Rewriting, Routing,
    Retrieving, Grading once per three steps of that budget. *)
Theorem rewrite_loop_unbounded :
  ∃ C query, ∀ limit thread_id w,
    ∃ w', run C limit query thread_id w = (inl GraphRecursionError, w') ∧
          rewrites (events w') = rewrites (events w) + limit / 3.
Proof.
  exists (constant_llm "which product?" []), "price".
  intros limit thread_id w. apply run_uses_any_budget.

  - intros log prompt. exists "which product?". by vm_compute.
  - done.
  - intros log query. by eexists.
  - reflexivity.
Qed.

Example rewrite_loop_25 :
  let r := run (constant_llm "which product?" []) 25 "price" default_thread fresh_world in
  fst r = inl GraphRecursionError ∧ rewrites (events (snd r)) = 8.
Proof. vm_compute. done. Qed.

(** ** Resuming a thread *)

Lemma step_keeps_first C tid n (state : AgentState) w target state' w' q :
  state !! 0 = Some q →
  step C tid n state w = (inr (target, state'), w') →
  state' !! 0 = Some q.
Proof.
  intros Hq (update & w1 & w2 & Hnode & -> & _ & _)%step_inv.
  apply node_action_single in Hnode as [m ->]. by apply lookup_0_snoc.
Qed.

Lemma execute_keeps_first C limit :
  ∀ tid n (state : AgentState) w result w' q,
    state !! 0 = Some q →
    execute C limit tid n state w = (inr result, w') →
    result !! 0 = Some q.
Proof.
  induction limit as [|limit IH]; intros tid n state w result w' q Hq; [done|].
  cbn [execute]. unfold bind.
  destruct (step C tid n state w) as [[e|[target state1]] w1] eqn:Hstep; [done|].
  pose proof (step_keeps_first _ _ _ _ _ _ _ _ _ Hq Hstep) as Hq1.
  destruct target as [n'|].
  - by apply IH.
  - unfold ret. by intros [= <- <-].
Qed.

(** On a thread without checkpoint the first entry of the state is the
    question of the run, from the start to the state that is returned. *)
Lemma fresh_thread_first_entry C limit (query tid : string) w result w' :
  checkpoints w !! tid = None →
  app_invoke C limit tid [HumanMessage query] w = (inr result, w') →
  result !! 0 = Some (HumanMessage query).
Proof.
  intros Hnone. unfold app_invoke, bind, load_checkpoint, save_checkpoint.
  rewrite Hnone. simpl. by apply execute_keeps_first.
Qed.

(** C5 at a failing input: two runs on the same thread.  The state of the
    second run starts with the first run's question, and the grader and the
    generator of the second run are prompted with that question, not with the
    one the second run was called with. *)
Theorem resumed_thread_reads_stale_question :
  let C := constant_llm "Yes." [] in
  let r1 := run C 25 first_question default_thread fresh_world in
  let r2 := run C 25 second_question default_thread (snd r1) in
  fst r1 = inr "Yes." ∧ fst r2 = inr "Yes." ∧
  checkpoints (snd r2) !! default_thread =
    Some [HumanMessage first_question; HumanMessage TOOL_MARKER;
          HumanMessage NO_DOCS; HumanMessage "Yes.";
          HumanMessage second_question; HumanMessage TOOL_MARKER;
          HumanMessage NO_DOCS; HumanMessage "Yes."] ∧
  drop (length (events (snd r1))) (events (snd r2)) =

    [Print "--- CALL ASSISTANT ---"; Print "--- RETRIEVER ---"; RetrieverLoad;
     Print "Retriever loaded successfully."; RetrieverCall TOOL_MARKER;
     Print "--- GRADER ---"; LLMCall (grader_prompt first_question NO_DOCS);
     Print "--- GENERATE ---"; LLMCall (plain_template NO_DOCS first_question)] ∧
  first_question ≠ second_question.
Proof. vm_compute. repeat split; done. Qed.

(** * Further properties of the workflow *)

(** ** One step *)

Lemma nonempty_first_last {A} (l : list A) :
  l ≠ [] → ∃ q m, l !! 0 = Some q ∧ last l = Some m.
Proof.
  intros Hne. destruct l as [|q l]; [done|]. exists q.
  destruct (last (q :: l)) as [m|] eqn:E; [by exists m|].
  by apply last_None in E.
Qed.

Lemma step_outcome C tid n (state : AgentState) w q m r w' :
  state !! 0 = Some q → last state = Some m →
  step C tid n state w = (r, w') →
  (∃ new, events w' = events w ++ new ∧ step_effects C n q m new) ∧
  match r with
  | inl e => (e = LLMError ∨ e = RetrieverLoadError ∨ e = RetrieverError) ∧
             checkpoints w' = checkpoints w
  | inr (target, state') =>
      (∃ m', state' = state ++ [m']) ∧ graph_edge n target ∧
      checkpoints w' = <[tid := state']> (checkpoints w) ∧
      (n = Assistant → target = Goto Retriever →
       ∃ m', last state' = Some m' ∧ PyStr.occurs "TOOL" (content m'))
  end.
Proof.
  intros Hq Hm. unfold step, bind, node_action. destruct n.
  - (* Assistant *)
    destruct (wants_retrieval (content m)) eqn:Hkw.
    + rewrite (ai_assistant_tool C state w m Hm Hkw).
      unfold add_messages, next_target. rewrite after_assistant_snoc.
      cbn [content]. rewrite tool_marker_has_tool.
      intros [= <- <-]. split.
      * eexists. split; [reflexivity|]. by left.
      * split; [by eexists|]. split; [by left|]. split; [done|].
        intros _ _. eexists. split; [apply last_snoc|].
        apply contains_occurs. reflexivity.
    + rewrite (ai_assistant_direct C state w m Hm Hkw).
      destruct (llm C _ _) as [answer|].
      * unfold add_messages, next_target. rewrite after_assistant_snoc.
        intros [= <- <-]. split.
        -- eexists. split; [reflexivity|]. by right.
        -- split; [by eexists|].
           destruct (PyStr.contains "TOOL" answer) eqn:E.
           ++ split; [by left|]. split; [done|]. intros _ _.
              eexists. split; [apply last_snoc|]. by apply contains_occurs.
           ++ split; [by right|]. split; [done|]. by intros _ [=].
      * intros [= <- <-]. split.
        -- eexists. split; [reflexivity|]. by right.
        -- split; [by left|done].
  - (* Retriever *)
    destruct (retriever_loads C (events w ++ [Print "--- RETRIEVER ---"])) eqn:Hload.
    + rewrite (vector_retriever_run C state w m Hm Hload).
      destruct (vector_store C _ _) as [docs|].
      * unfold add_messages, next_target, bind.
        rewrite (grade_documents_run C _ _ q (HumanMessage (_format_docs (Some docs)))
                   (lookup_0_snoc _ _ _ Hq) (last_snoc _ _)).
        cbn [events checkpoints content]. rewrite <- !app_assoc. cbn [app].
        destruct (llm C _ _) as [score|].
        -- destruct (PyStr.contains "yes" (PyStr.lower score)).
           ++ rewrite path_lookup_generator. intros [= <- <-]. split.
              ** eexists. split; [reflexivity|]. right. right. by exists docs.
              ** split; [by eexists|]. split; [by left|]. split; [done|]. by intros [=].
           ++ rewrite path_lookup_rewriter. intros [= <- <-]. split.
              ** eexists. split; [reflexivity|]. right. right. by exists docs.
              ** split; [by eexists|]. split; [by right|]. split; [done|]. by intros [=].
        -- intros [= <- <-]. split.
           ++ eexists. split; [reflexivity|]. right. right. by exists docs.
           ++ split; [by left|done].
      * intros [= <- <-]. split.
        -- eexists. split; [reflexivity|]. right. by left.
        -- split; [by right; right|done].
    + rewrite (vector_retriever_load_fails C state w m Hm Hload).
      intros [= <- <-]. split.
      * eexists. split; [reflexivity|]. by left.
      * split; [by right; left|done].
  - (* Generator *)
    rewrite (generate_run C state w q m Hq Hm).
    destruct (llm C _ _) as [response|].
    + intros [= <- <-]. split.
      * eexists. split; [reflexivity|]. done.
      * split; [by eexists|]. split; [done|]. split; [done|]. by intros [=].
    + intros [= <- <-]. split.
      * eexists. split; [reflexivity|]. done.
      * split; [by left|done].
  - (* Rewriter *)
    rewrite (rewrite_run C state w q Hq).
    destruct (llm C _ _) as [new_q|].
    + intros [= <- <-]. split.
      * eexists. split; [reflexivity|]. done.
      * split; [by eexists|]. split; [done|]. split; [done|]. by intros [=].
    + intros [= <- <-]. split.
      * eexists. split; [reflexivity|]. done.
      * split; [by left|done].
Qed.

Lemma step_effects_sound C n q m new :
  step_effects C n q m new →
  (n = Retriever → PyStr.occurs "TOOL" (content m)) →
  Forall query_has_sentinel new ∧ Forall (prompt_about C (content q)) new.
Proof.
  intros Heff Htool.
  assert (∀ text, prompt_about C (content q) (LLMCall (direct_prompt text))) as Hdirect
    by (intros text; left; by eexists).
  assert (∀ docs, prompt_about C (content q) (LLMCall (grader_prompt (content q) docs)))
    as Hgrader by (intros docs; right; left; by eexists).
  assert (∀ docs, prompt_about C (content q)
                    (LLMCall (product_bot_prompt C docs (content q)))) as Hbot
    by (intros docs; right; right; left; by eexists).
  assert (prompt_about C (content q) (LLMCall (rewrite_prompt (content q)))) as Hrw
    by (by right; right; right).
  destruct n; cbn in Heff.
  - destruct Heff as [-> | ->]; split;
      repeat first [apply Forall_nil | apply Forall_cons; split]; done.
  - specialize (Htool eq_refl).
    destruct Heff as [-> | [-> | [docs ->]]]; split;
      repeat first [apply Forall_nil | apply Forall_cons; split]; done.
  - subst new. split; repeat first [apply Forall_nil | apply Forall_cons; split]; done.
  - subst new. split; repeat first [apply Forall_nil | apply Forall_cons; split]; done.
Qed.

(** ** Whole executions *)

Lemma execute_outcome C tid limit :
  ∀ n (state : AgentState) w r w' q,
    state !! 0 = Some q →
    (n = Retriever → ∃ m, last state = Some m ∧ PyStr.occurs "TOOL" (content m)) →
    execute C limit tid n state w = (r, w') →
    (∃ new, events w' = events w ++ new ∧
            Forall query_has_sentinel new ∧ Forall (prompt_about C (content q)) new) ∧
    (∀ tid', tid' ≠ tid → checkpoints w' !! tid' = checkpoints w !! tid') ∧
    match r with
    | inl e => external_error e
    | inr result =>
        ∃ extra, result = state ++ extra ∧ extra ≠ [] ∧
                 checkpoints w' !! tid = Some result
    end.
Proof.
  induction limit as [|limit IH]; intros n state w r w' q Hq Htool.
  { intros [= <- <-]. split; [|split].
    - exists []. by rewrite app_nil_r.
    - done.
    - by right; right; right. }
  cbn [execute]. unfold bind.
  destruct (step C tid n state w) as [r1 w1] eqn:Hstep.
  assert (∃ m, last state = Some m) as [m Hm].
  { destruct (nonempty_first_last state) as (? & m & _ & ?); [|by exists m].
    by intros ->. }
  destruct (step_outcome C tid n state w q m r1 w1 Hq Hm Hstep)
    as [(new1 & Hev1 & Heff) Hres].
  assert (Forall query_has_sentinel new1 ∧ Forall (prompt_about C (content q)) new1)
    as [Hs1 Hp1].
  { apply (step_effects_sound C n q m); [done|].
    intros Hn. destruct (Htool Hn) as (m0 & Hm0 & H0). congruence. }
  destruct r1 as [e|[target state1]].
  - destruct Hres as [He Hcp]. intros [= <- <-]. split; [|split].
    + by exists new1.
    + intros tid' _. by rewrite Hcp.
    + destruct He as [->|[->| ->]];
        [by left | by right; left | by right; right; left].
  - destruct Hres as ([m1 ->] & Hedge & Hcp & Hnext).
    destruct target as [n'|].
    + intros Hexec.
      destruct (IH n' (state ++ [m1]) w1 r w' q (lookup_0_snoc _ _ _ Hq)) as
        [(new2 & Hev2 & Hs2 & Hp2) [Hiso Hr]]; [|done|].
      { intros ->.
        destruct n; cbn in Hedge; [by apply Hnext | by destruct Hedge | done | done]. }
      split; [|split].
      * exists (new1 ++ new2). rewrite Hev2, Hev1, <- app_assoc.
        split; [done|]. split; by apply Forall_app.
      * intros tid' Hne. rewrite (Hiso tid' Hne), Hcp. by apply lookup_insert_ne.
      * destruct r as [e|result]; [done|].
        destruct Hr as (extra & -> & _ & Hsaved).
        exists (m1 :: extra). split; [by rewrite <- app_assoc|]. done.
    + intros [= <- <-]. split; [|split].
      * by exists new1.
      * intros tid' Hne. rewrite Hcp. by apply lookup_insert_ne.
      * exists [m1]. split; [done|]. split; [done|].
        rewrite Hcp. apply lookup_insert_eq.
Qed.

Lemma app_invoke_outcome C limit (query tid : string) w r w' :
  app_invoke C limit tid [HumanMessage query] w = (r, w') →
  (∃ new, events w' = events w ++ new ∧
          Forall query_has_sentinel new ∧
          Forall (prompt_about C (question_of (initial_state w tid query))) new) ∧
  (∀ tid', tid' ≠ tid → checkpoints w' !! tid' = checkpoints w !! tid') ∧
  match r with
  | inl e => external_error e
  | inr result =>
      ∃ extra, result = initial_state w tid query ++ extra ∧ extra ≠ [] ∧
               checkpoints w' !! tid = Some result
  end.
Proof.
  unfold app_invoke, bind, load_checkpoint, save_checkpoint. fold (initial_state w tid query).
  set (state := initial_state w tid query).
  assert (∃ q, state !! 0 = Some q) as [q Hq].
  { unfold state, initial_state, add_messages.
    destruct (default [] (checkpoints w !! tid)); simpl; eauto. }
  intros Hexec.
  destruct (execute_outcome C tid limit Assistant state _ r w' q Hq ltac:(done) Hexec)
    as [Hev [Hiso Hr]].
  unfold question_of. rewrite Hq. split; [done|]. split; [|done].
  intros tid' Hne. rewrite (Hiso tid' Hne). simpl. by apply lookup_insert_ne.
Qed.

(** ** Whole runs *)

(** X1. A run never fails on its own indexing or on a missing edge: when
    [run] raises, the error comes from the language model, from the
    retrieval collaborator or from the step budget. *)
Theorem run_fails_only_externally C limit (query tid : string) w e w' :
  run C limit query tid w = (inl e, w') → external_error e.
Proof.
  unfold run, bind.
  destruct (app_invoke C limit tid [HumanMessage query] w) as [r w1] eqn:Hinv.
  destruct (app_invoke_outcome C limit query tid w r w1 Hinv) as (_ & _ & Hr).
  destruct r as [e1|result].
  - by intros [= <- <-].
  - destruct Hr as (extra & -> & Hne & _).
    destruct (exists_last Hne) as (extra' & m & ->).
    unfold last_item. rewrite app_assoc, last_snoc. done.
Qed.

Lemma run_fails_only_externally_witness : external_error GraphRecursionError.
Proof.
  apply (run_fails_only_externally (constant_llm "which product?" []) 4 "price"
           default_thread fresh_world GraphRecursionError
           (snd (run (constant_llm "which product?" []) 4 "price"
                   default_thread fresh_world))).
  reflexivity.
Defined.


(** X3. In a run every prompt of the grader, of the generator and of the
    rewriter is built from the first entry of the state: a rewritten
    question reaches the router only, and a second rewrite starts again
    from the first entry. *)
Theorem run_prompts_use_first_entry C limit (query tid : string) w :
  ∃ new, events (snd (run C limit query tid w)) = events w ++ new ∧
         Forall (prompt_about C (question_of (initial_state w tid query))) new.
Proof.
  unfold run, bind.
  destruct (app_invoke C limit tid [HumanMessage query] w) as [r w1] eqn:Hinv.
  destruct (app_invoke_outcome C limit query tid w r w1 Hinv)
    as ((new & Hev & _ & Hp) & _ & _).
  exists new. split; [|done].
  destruct r as [e|result]; [done|].
  unfold last_item. by destruct (last result).
Qed.

(** X4. A run touches the checkpoint of its own thread only. *)
Theorem run_keeps_other_threads C limit (query tid tid' : string) w :
  tid' ≠ tid →
  checkpoints (snd (run C limit query tid w)) !! tid' = checkpoints w !! tid'.
Proof.
  intros Hne. unfold run, bind.
  destruct (app_invoke C limit tid [HumanMessage query] w) as [r w1] eqn:Hinv.
  destruct (app_invoke_outcome C limit query tid w r w1 Hinv) as (_ & Hiso & _).
  rewrite <- (Hiso tid' Hne).
  destruct r as [e|result]; [done|].
  unfold last_item. by destruct (last result).
Qed.

Lemma run_keeps_other_threads_witness :
  checkpoints (snd (run (constant_llm "Hi." []) 25 "Hello" "thread-a"
                      (mkWorld [] {[ "thread-b" := sample_state ]}))) !! "thread-b"
  = Some sample_state.
Proof.
  rewrite (run_keeps_other_threads (constant_llm "Hi." []) 25 "Hello" "thread-a" "thread-b").
  - reflexivity.
  - discriminate.
Defined.

(** X5. When a run returns, its answer is the last entry of the state saved
    for the thread, and that state is the one the thread had before, then
    the query, then at least one new entry. *)
Theorem run_returns_last_saved C limit (query tid : string) w answer w' :
  run C limit query tid w = (inr answer, w') →
  ∃ extra final,
    checkpoints w' !! tid =
      Some (default [] (checkpoints w !! tid) ++ HumanMessage query :: extra ++ [final]) ∧
    answer = content final.
Proof.
  unfold run, bind.
  destruct (app_invoke C limit tid [HumanMessage query] w) as [r w1] eqn:Hinv.
  destruct (app_invoke_outcome C limit query tid w r w1 Hinv) as (_ & _ & Hr).
  destruct r as [e1|result]; [done|].
  destruct Hr as (extra & -> & Hne & Hsaved).
  destruct (exists_last Hne) as (extra' & final & ->).
  unfold last_item. rewrite app_assoc, last_snoc.
  intros [= <- <-]. exists extra', final. split; [|done].
  rewrite Hsaved. unfold initial_state, add_messages.
  by rewrite <- !app_assoc.
Qed.

Lemma run_returns_last_saved_witness :
  ∃ extra final,
    checkpoints (snd (run (constant_llm "Yes." []) 25 first_question default_thread
                        fresh_world)) !! default_thread =
      Some (default [] (checkpoints fresh_world !! default_thread) ++
            HumanMessage first_question :: extra ++ [final]) ∧
    "Yes." = content final.
Proof.
  apply (run_returns_last_saved (constant_llm "Yes." []) 25 first_question
           default_thread fresh_world "Yes.").
  reflexivity.
Defined.

(** ** Steps along the evidence path *)

Lemma step_on_empty_fails C tid n w :
  fst (step C tid n [] w) = inl IndexError.
Proof. by destruct n. Qed.

(** X6. A step that completes follows an edge of the graph built by
    [_build_workflow]; so the Generator node is entered from the Retriever
    node only, and the engine stops after the Assistant node or after the
    Generator node only. *)
Theorem step_follows_graph C tid n (state : AgentState) w target state' w' :
  step C tid n state w = (inr (target, state'), w') →
  graph_edge n target ∧
  (target = Goto Generator → n = Retriever) ∧
  (target = END → n = Assistant ∨ n = Generator).
Proof.
  intros Hstep.
  assert (graph_edge n target) as Hedge.
  { destruct (decide (state = [])) as [->|Hne].
    { pose proof (step_on_empty_fails C tid n w) as H. by rewrite Hstep in H. }
    destruct (nonempty_first_last state Hne) as (q & m & Hq & Hm).
    by destruct (step_outcome C tid n state w q m _ _ Hq Hm Hstep) as [_ (_ & ? & _)]. }
  split; [done|].
  destruct n; cbn in Hedge; split; intros ->; try done; try by destruct Hedge.
  - by left.
  - by right.
Qed.

Lemma step_follows_graph_witness :
  graph_edge Generator END ∧
  (END = Goto Generator → Generator = Retriever) ∧
  (END = END → Generator = Assistant ∨ Generator = Generator).
Proof.
  apply (step_follows_graph (constant_llm "It costs 999." []) default_thread Generator
           sample_state fresh_world END (sample_state ++ [HumanMessage "It costs 999."])
           (snd (step (constant_llm "It costs 999." []) default_thread Generator
                   sample_state fresh_world))).
  reflexivity.
Defined.

Lemma step_retriever_graded C tid (state : AgentState) w q m docs score :
  state !! 0 = Some q → last state = Some m →
  retriever_loads C (events w ++ [Print "--- RETRIEVER ---"]) = true →
  vector_store C (events w ++ [Print "--- RETRIEVER ---"; RetrieverLoad;
                               Print "Retriever loaded successfully."])
    (content m) = Some docs →
  llm C (events w ++ [Print "--- RETRIEVER ---"; RetrieverLoad;
                      Print "Retriever loaded successfully.";
                      RetrieverCall (content m); Print "--- GRADER ---"])
    (grader_prompt (content q) (_format_docs (Some docs))) = Some score →
  step C tid Retriever state w =
    (inr (if PyStr.contains "yes" (PyStr.lower score)
          then Goto Generator else Goto Rewriter,
          state ++ [HumanMessage (_format_docs (Some docs))]),
     mkWorld (events w ++ [Print "--- RETRIEVER ---"; RetrieverLoad;
                           Print "Retriever loaded successfully.";
                           RetrieverCall (content m); Print "--- GRADER ---";
                           LLMCall (grader_prompt (content q) (_format_docs (Some docs)))])
       (<[tid := state ++ [HumanMessage (_format_docs (Some docs))]]> (checkpoints w))).
Proof.
  intros Hq Hm Hload Hdocs Hscore.
  unfold step, bind, node_action.
  rewrite (vector_retriever_run C state w m Hm Hload).
  rewrite <- ?app_assoc. cbn [app]. rewrite Hdocs. unfold add_messages.
  unfold next_target, bind.
  rewrite (grade_documents_run C _ _ q (HumanMessage (_format_docs (Some docs)))
             (lookup_0_snoc _ _ _ Hq) (last_snoc _ _)).
  cbn [events checkpoints content]. rewrite <- ?app_assoc. cbn [app]. rewrite Hscore.
  destruct (PyStr.contains "yes" (PyStr.lower score));
    [rewrite path_lookup_generator | rewrite path_lookup_rewriter]; reflexivity.
Qed.

Lemma step_generator_ends C tid (state : AgentState) w q d answer :
  state !! 0 = Some q → last state = Some d →
  llm C (events w ++ [Print "--- GENERATE ---"])
    (product_bot_prompt C (content d) (content q)) = Some answer →
  step C tid Generator state w =
    (inr (END, state ++ [HumanMessage answer]),
     mkWorld (events w ++ [Print "--- GENERATE ---";
                           LLMCall (product_bot_prompt C (content d) (content q))])
       (<[tid := state ++ [HumanMessage answer]]> (checkpoints w))).
Proof.
  intros Hq Hd Hllm. unfold step, bind, node_action.
  rewrite (generate_run C state w q d Hq Hd), Hllm. reflexivity.
Qed.

(** X7. The Retriever node searches the vector store with the latest entry
    of the state and appends the formatted result; the grading edge then
    asks the language model about the first entry and that context, and its
    verdict chooses between the Generator and the Rewriter node. *)
Theorem retriever_step_grades_context C tid (state : AgentState) w q m docs score :
  state !! 0 = Some q → last state = Some m →
  let ev1 := events w ++ [Print "--- RETRIEVER ---"] in
  retriever_loads C ev1 = true →
  let ev2 := ev1 ++ [RetrieverLoad; Print "Retriever loaded successfully."] in
  vector_store C ev2 (content m) = Some docs →
  let context := _format_docs (Some docs) in
  let ev3 := ev2 ++ [RetrieverCall (content m); Print "--- GRADER ---"] in
  llm C ev3 (grader_prompt (content q) context) = Some score →
  let state' := state ++ [HumanMessage context] in
  step C tid Retriever state w =
    (inr (if PyStr.contains "yes" (PyStr.lower score)
          then Goto Generator else Goto Rewriter, state'),
     mkWorld (ev3 ++ [LLMCall (grader_prompt (content q) context)])
       (<[tid := state']> (checkpoints w))).
Proof.
  intros Hq Hm ev1 Hload ev2 Hdocs context ev3 Hscore state'.
  unfold state', context, ev3, ev2, ev1 in *.
  repeat (rewrite <- app_assoc in Hdocs; cbn [app] in Hdocs).
  repeat (rewrite <- app_assoc in Hscore; cbn [app] in Hscore).
  repeat (rewrite <- app_assoc; cbn [app]).
  by apply step_retriever_graded.
Qed.

Lemma retriever_step_grades_context_witness :
  let C := constant_llm "no" sample_docs in
  let state := [HumanMessage first_question; HumanMessage TOOL_MARKER] in
  let context := _format_docs (Some sample_docs) in
  step C default_thread Retriever state fresh_world =
    (inr (Goto Rewriter, state ++ [HumanMessage context]),
     mkWorld [Print "--- RETRIEVER ---"; RetrieverLoad;
              Print "Retriever loaded successfully."; RetrieverCall TOOL_MARKER;
              Print "--- GRADER ---"; LLMCall (grader_prompt first_question context)]
       (<[default_thread := state ++ [HumanMessage context]]> ∅)).
Proof.
  intros C state context.
  apply (retriever_step_grades_context C default_thread state fresh_world
           (HumanMessage first_question) (HumanMessage TOOL_MARKER) sample_docs "no");
    reflexivity.
Defined.

(** X8. The Generator node makes one language-model call, on the registered
    template filled with the latest entry as context and the first entry as
    question; its answer becomes the latest entry and the engine stops
    there. *)
Theorem generator_step_ends_run C tid limit (state : AgentState) w q d answer :
  state !! 0 = Some q → last state = Some d →
  llm C (events w ++ [Print "--- GENERATE ---"])
    (product_bot_prompt C (content d) (content q)) = Some answer →
  let state' := state ++ [HumanMessage answer] in
  let w' := mkWorld (events w ++ [Print "--- GENERATE ---";
                                  LLMCall (product_bot_prompt C (content d) (content q))])
              (<[tid := state']> (checkpoints w)) in
  step C tid Generator state w = (inr (END, state'), w') ∧
  execute C (S limit) tid Generator state w = (inr state', w').
Proof.
  intros Hq Hd Hllm state' w'.
  assert (step C tid Generator state w = (inr (END, state'), w')) as Hstep
    by (by apply step_generator_ends).
  split; [done|]. cbn [execute]. unfold bind. by rewrite Hstep.
Qed.

Lemma generator_step_ends_run_witness :
  let C := constant_llm "It costs 999." [] in
  let state' := sample_state ++ [HumanMessage "It costs 999."] in
  let w' := mkWorld [Print "--- GENERATE ---";
                     LLMCall (plain_template NO_DOCS first_question)]
              (<[default_thread := state']> ∅) in
  step C default_thread Generator sample_state fresh_world = (inr (END, state'), w') ∧
  execute C 1 default_thread Generator sample_state fresh_world = (inr state', w').
Proof.
  intros C state' w'.
  apply (generator_step_ends_run C default_thread 0 sample_state fresh_world
           (HumanMessage first_question) (HumanMessage NO_DOCS) "It costs 999.");
    reflexivity.
Defined.



(** ** The formatter's sentinel *)

Lemma join_cons_head (sep x : string) (rest : list string) :
  ∃ tail, PyStr.join sep (x :: rest) = x +:+ tail.
Proof.
  destruct rest as [|y rest]; simpl.
  - exists "". by rewrite append_empty_r.
  - by eexists.
Qed.

(** X10. The formatter returns the sentinel for an empty or absent sequence
    only: the context of a non-empty sequence starts with the title line of
    its first item and so differs from the sentinel. *)
Theorem format_docs_sentinel_iff (docs : option (list Document)) :
  _format_docs docs = NO_DOCS ↔ docs = None ∨ docs = Some [].
Proof.
  split.
  - destruct docs as [[|d ds]|]; [by right | | by left].
    intros H. exfalso. unfold _format_docs in H.
    rewrite (format_docs_run_nonempty (d :: ds)) in H by done.
    cbn [fst map] in H.
    destruct (join_cons_head SEPARATOR (format_chunk d) (map format_chunk ds))
      as [tail Htail].
    rewrite Htail in H. discriminate H.
  - by intros [-> | ->].
Qed.

(** ** The environment checks *)

Lemma load_dotenv_lookup (dotenv env : PyLib.Env) (var : string) :
  PyLib.load_dotenv dotenv env !! var = merged_env dotenv env var.
Proof.
  unfold PyLib.load_dotenv, merged_env. rewrite lookup_union.
  by destruct (env !! var), (dotenv !! var).
Qed.

(** X11. [DataIngestion._load_env_variables] succeeds exactly when each of
    the four variables has a value in the process environment or, failing
    that, in the [.env] file; an empty value counts.  The credentials it
    sets are those values, none of them [None].  Otherwise it raises with a
    message that lists the missing variables in the order of the required
    list. *)
Theorem ingestion_env_check (dotenv env : PyLib.Env) :
  let value := merged_env dotenv env in
  let missing := List.filter (λ var, bool_decide (value var = None))
                   Ingestion.required_vars in
  match fst (Ingestion._load_env_variables dotenv env) with
  | inr c =>
      missing = [] ∧
      Ingestion.google_api_key c = value "GOOGLE_API_KEY" ∧
      Ingestion.db_api_endpoint c = value "ASTRA_DB_API_ENDPOINT" ∧
      Ingestion.db_application_token c = value "ASTRA_DB_APPLICATION_TOKEN" ∧
      Ingestion.db_keyspace c = value "ASTRA_DB_KEYSPACE" ∧
      is_Some (Ingestion.google_api_key c) ∧ is_Some (Ingestion.db_api_endpoint c) ∧
      is_Some (Ingestion.db_application_token c) ∧ is_Some (Ingestion.db_keyspace c)
  | inl e =>
      missing ≠ [] ∧
      e = Ingestion.EnvironmentError
            ("Missing environment variables: " +:+ PyLib.repr_names missing)
  end.
Proof.
  intros value missing. unfold missing, value, Ingestion._load_env_variables.
  unfold Ingestion.required_vars. cbn [List.filter].
  rewrite !load_dotenv_lookup.
  destruct (merged_env dotenv env "GOOGLE_API_KEY") as [v1|];
    destruct (merged_env dotenv env "ASTRA_DB_API_ENDPOINT") as [v2|];
    destruct (merged_env dotenv env "ASTRA_DB_APPLICATION_TOKEN") as [v3|];
    destruct (merged_env dotenv env "ASTRA_DB_KEYSPACE") as [v4|];
    cbn; done.
Qed.

Lemma retrieval_env_check_agrees (dotenv env : PyLib.Env) :
  snd (Retrieval._load_env_variables dotenv env) =
    snd (Ingestion._load_env_variables dotenv env) ∧
  match fst (Retrieval._load_env_variables dotenv env),
        fst (Ingestion._load_env_variables dotenv env) with
  | inr c, inr c' =>
      Retrieval.google_api_key c = Ingestion.google_api_key c' ∧
      Retrieval.db_api_endpoint c = Ingestion.db_api_endpoint c' ∧
      Retrieval.db_application_token c = Ingestion.db_application_token c' ∧
      Retrieval.db_keyspace c = Ingestion.db_keyspace c'
  | inl (Retrieval.EnvironmentError msg), inl (Ingestion.EnvironmentError msg') =>
      msg = msg'
  | _, _ => False
  end.
Proof.
  unfold Retrieval._load_env_variables, Ingestion._load_env_variables.
  change Retrieval.required_vars with Ingestion.required_vars.
  destruct (List.filter _ Ingestion.required_vars); cbn; done.
Qed.

Lemma retrieval_env_success (dotenv env env' : PyLib.Env) c :
  Retrieval._load_env_variables dotenv env = (inr c, env') →
  is_Some (Retrieval.google_api_key c) ∧ is_Some (Retrieval.db_api_endpoint c) ∧
  is_Some (Retrieval.db_application_token c) ∧ is_Some (Retrieval.db_keyspace c) ∧
  Retrieval.google_api_key c = merged_env dotenv env "GOOGLE_API_KEY" ∧
  Retrieval.db_api_endpoint c = merged_env dotenv env "ASTRA_DB_API_ENDPOINT" ∧
  Retrieval.db_application_token c = merged_env dotenv env "ASTRA_DB_APPLICATION_TOKEN" ∧
  Retrieval.db_keyspace c = merged_env dotenv env "ASTRA_DB_KEYSPACE".
Proof.
  unfold Retrieval._load_env_variables, Retrieval.required_vars. cbn [List.filter].
  rewrite !load_dotenv_lookup.
  destruct (merged_env dotenv env "GOOGLE_API_KEY") as [v1|];
    destruct (merged_env dotenv env "ASTRA_DB_API_ENDPOINT") as [v2|];
    destruct (merged_env dotenv env "ASTRA_DB_APPLICATION_TOKEN") as [v3|];
    destruct (merged_env dotenv env "ASTRA_DB_KEYSPACE") as [v4|];
    cbn; try done.
  intros [= <- <-]. cbn. done.
Qed.

Example env_check_sample :
  fst (Ingestion._load_env_variables sample_dotenv sample_env) =
    inr (Ingestion.mkCredentials (Some "g-key") (Some "https://db") (Some "token") (Some "")) ∧
  fst (Ingestion._load_env_variables ∅ sample_env) =
    inl (Ingestion.EnvironmentError
           "Missing environment variables: ['ASTRA_DB_APPLICATION_TOKEN']").
Proof. split; reflexivity. Qed.

(** ** The ingestion pipeline *)

Lemma cell_complete (row : gmap string string) (column : string) :
  is_Some (row !! column) → Ingestion.cell row column = inr (row !!! column).
Proof.
  intros [v Hv]. unfold Ingestion.cell. rewrite Hv.
  by rewrite (lookup_total_correct _ _ _ Hv).
Qed.













(** X15. The keys the ingestion pipeline writes are the keys the formatter
    reads: the block of a document made from a row shows the row's title,
    price and rating, and the stripped reviews; the placeholder "N/A" does
    not come up. *)
Theorem ingested_document_block (row : gmap string string) :
  format_chunk (row_document row) =
    four_field_block (row !!! "product_title") (row !!! "price") (row !!! "rating")
      (PyStr.strip (row !!! "top_reviews")).
Proof.
  unfold format_chunk, row_document, four_field_block, meta_get.
  cbn [metadata page_content default]. by simplify_map_eq.
Qed.

(** ** The API key manager *)

Lemma fill_from_env_lookup (env : PyLib.Env) keys log (key k : string) :
  fst (ModelLoader.fill_from_env env (keys, log) key) !! k =
    if decide (k = key) then key_value keys env key else keys !! k.
Proof.
  unfold ModelLoader.fill_from_env, key_value.
  destruct (ModelLoader.available (keys !! key)) eqn:Havail.
  { cbn [fst]. by destruct (decide (k = key)) as [->|]. }
  destruct (env !! key) as [env_val|]; [|cbn [fst]; by destruct (decide (k = key)) as [->|]].
  destruct (PyLib.truthy env_val); cbn [fst].
  - destruct (decide (k = key)) as [->|Hne].
    + apply lookup_insert_eq.
    + by apply lookup_insert_ne.
  - by destruct (decide (k = key)) as [->|].
Qed.

Lemma filled_keys_lookup (json_loads : string → ModelLoader.JsonParse) (env : PyLib.Env)
    (k : string) :
  fst (foldl (ModelLoader.fill_from_env env) (ModelLoader.read_blob json_loads env)
         ModelLoader.REQUIRED_KEYS) !! k =
    if bool_decide (k ∈ ModelLoader.REQUIRED_KEYS)
    then key_value (key_blob json_loads env) env k
    else key_blob json_loads env !! k.
Proof.
  unfold key_blob. destruct (ModelLoader.read_blob json_loads env) as [blob log0].
  cbn [foldl ModelLoader.REQUIRED_KEYS fst].
  destruct (ModelLoader.fill_from_env env (blob, log0) "GROQ_API_KEY")
    as [keys1 log1] eqn:E1.
  pose proof (fill_from_env_lookup env blob log0 "GROQ_API_KEY") as H1.
  rewrite E1 in H1. cbn [fst] in H1.
  rewrite fill_from_env_lookup.
  destruct (decide (k = "GOOGLE_API_KEY")) as [->|Hgoogle].
  - rewrite bool_decide_eq_true_2 by (by repeat constructor).
    unfold key_value. rewrite (H1 "GOOGLE_API_KEY"). by rewrite decide_False.
  - rewrite (H1 k). destruct (decide (k = "GROQ_API_KEY")) as [->|Hgroq].
    + by rewrite bool_decide_eq_true_2 by (by repeat constructor).
    + rewrite bool_decide_eq_false_2; [done|]. intros Hin.
      repeat (apply elem_of_cons in Hin as [?|Hin]; [done|]).
      by apply elem_of_nil in Hin.
Qed.

Lemma masked_keys_Some keys masked :
  ModelLoader.masked_keys keys = Some masked →
  masked = omap ModelLoader.mask keys ∧
  ∀ k v, keys !! k = Some v → ∃ s, v = ModelLoader.JString s.
Proof.
  unfold ModelLoader.masked_keys. case_bool_decide as Hall; [|done].
  intros [= <-]. split; [done|]. intros k v Hk.
  destruct (Hall k v Hk) as [m Hm]. destruct v; [by eexists|done].
Qed.

Lemma truthy_nonempty (s : string) : PyLib.truthy s = true ↔ s ≠ "".
Proof. by destruct s. Qed.

Lemma api_key_init_inv json_loads env mgr log :
  ModelLoader.ApiKeyManager_init json_loads env = (inr mgr, log) →
  ∃ log0 masked,
    log = log0 ++ [ModelLoader.mkLog ModelLoader.INFO "API keys loaded"
                     [("keys", ModelLoader.LMasked masked)]] ∧
    ModelLoader.masked_keys (ModelLoader.api_keys mgr) = Some masked ∧
    (∀ k, ModelLoader.api_keys mgr !! k =
            if bool_decide (k ∈ ModelLoader.REQUIRED_KEYS)
            then key_value (key_blob json_loads env) env k
            else key_blob json_loads env !! k) ∧
    (∀ k, k ∈ ModelLoader.REQUIRED_KEYS →
          ModelLoader.available (ModelLoader.api_keys mgr !! k) = true).
Proof.
  unfold ModelLoader.ApiKeyManager_init.
  pose proof (filled_keys_lookup json_loads env) as Hkeys.
  destruct (foldl _ _ _) as [keys log1]. cbn [fst] in Hkeys.
  destruct (List.filter _ _) as [|k0 missing] eqn:Hmissing; [|done].
  destruct (ModelLoader.masked_keys keys) as [masked|] eqn:Hmask; [|done].
  intros [= <- <-]. exists log1, masked. cbn [ModelLoader.api_keys].
  split; [done|]. split; [done|]. split; [done|].
  intros k Hk%list_elem_of_In.
  destruct (ModelLoader.available (keys !! k)) eqn:E; [done|].
  assert (In k (List.filter (λ k, negb (ModelLoader.available (keys !! k)))
                  ModelLoader.REQUIRED_KEYS)) as Hin.
  { apply filter_In. by rewrite E. }
  by rewrite Hmissing in Hin.
Qed.

Lemma get_after_init json_loads env mgr log (key : string) :
  ModelLoader.ApiKeyManager_init json_loads env = (inr mgr, log) →
  key ∈ ModelLoader.REQUIRED_KEYS →
  ∃ s, s ≠ "" ∧
       ModelLoader.get mgr key = inr (ModelLoader.JString s) ∧
       if ModelLoader.available (key_blob json_loads env !! key)
       then key_blob json_loads env !! key = Some (ModelLoader.JString s)
       else env !! key = Some s.
Proof.
  intros (log0 & masked & _ & Hmask & Hkeys & Havail)%api_key_init_inv Hkey.
  specialize (Havail key Hkey). specialize (Hkeys key).
  rewrite bool_decide_eq_true_2 in Hkeys by done.
  apply masked_keys_Some in Hmask as [_ Hstr].
  destruct (ModelLoader.api_keys mgr !! key) as [v|] eqn:Hv; [|done].
  destruct (Hstr key v Hv) as [s ->]. exists s.
  cbn in Havail. split; [by apply truthy_nonempty|].
  split.
  { unfold ModelLoader.get. rewrite Hv. cbn. by rewrite Havail. }
  unfold key_value in Hkeys.
  destruct (ModelLoader.available (key_blob json_loads env !! key)) eqn:Hb; [done|].
  destruct (env !! key) as [env_val|].
  - destruct (PyLib.truthy env_val); [by simplify_eq|].
    rewrite <- Hkeys in Hb. cbn in Hb. congruence.
  - rewrite <- Hkeys in Hb. cbn in Hb. congruence.
Qed.

(** X16. After [ApiKeyManager.__init__] has returned, [get] succeeds for
    both required keys and returns a non-empty string: the value of the JSON
    object in [API_KEYS] when that object has a usable value for the key,
    whatever the environment variable of the same name holds, and the
    environment variable otherwise. *)
Theorem api_keys_after_init json_loads env mgr log (key : string) :
  ModelLoader.ApiKeyManager_init json_loads env = (inr mgr, log) →
  key ∈ ModelLoader.REQUIRED_KEYS →
  ∃ s, s ≠ "" ∧
       ModelLoader.get mgr key = inr (ModelLoader.JString s) ∧
       if ModelLoader.available (key_blob json_loads env !! key)
       then key_blob json_loads env !! key = Some (ModelLoader.JString s)
       else env !! key = Some s.
Proof. apply get_after_init. Qed.

Lemma api_keys_after_init_witness :
  ∃ s, s ≠ "" ∧
       ModelLoader.get sample_mgr "GOOGLE_API_KEY" = inr (ModelLoader.JString s) ∧
       if ModelLoader.available (key_blob sample_json sample_key_env !! "GOOGLE_API_KEY")
       then key_blob sample_json sample_key_env !! "GOOGLE_API_KEY"
              = Some (ModelLoader.JString s)
       else sample_key_env !! "GOOGLE_API_KEY" = Some s.
Proof.
  apply (api_keys_after_init sample_json sample_key_env sample_mgr
           (snd (ModelLoader.ApiKeyManager_init sample_json sample_key_env))).
  - reflexivity.
  - by repeat constructor.
Defined.

(** X17. [ApiKeyManager.__init__] raises "Missing API keys" exactly when
    some required key has a usable value neither in the JSON object nor in
    the environment variable of its name; the error it logs names those
    keys, in the order of the required list, and no key value. *)
Theorem api_keys_missing json_loads env :
  let blob := key_blob json_loads env in
  let missing := List.filter (λ k, negb (ModelLoader.available (key_value blob env k)))
                   ModelLoader.REQUIRED_KEYS in
  (fst (ModelLoader.ApiKeyManager_init json_loads env)
     = inl (ModelLoader.ProductAssistantException "Missing API keys")
   ↔ missing ≠ []) ∧
  (missing ≠ [] →
   last (snd (ModelLoader.ApiKeyManager_init json_loads env)) =
     Some (ModelLoader.mkLog ModelLoader.ERROR "Missing required API keys"
             [("missing_keys", ModelLoader.LNames missing)])).
Proof.
  intros blob missing. unfold ModelLoader.ApiKeyManager_init.
  pose proof (filled_keys_lookup json_loads env) as Hkeys.
  destruct (foldl _ _ _) as [keys log1]. cbn [fst] in Hkeys.
  assert (List.filter (λ k, negb (ModelLoader.available (keys !! k)))
            ModelLoader.REQUIRED_KEYS = missing) as ->.
  { unfold missing, blob, ModelLoader.REQUIRED_KEYS. cbn [List.filter].
    rewrite (Hkeys "GROQ_API_KEY"), (Hkeys "GOOGLE_API_KEY").
    rewrite !bool_decide_eq_true_2 by (by repeat constructor). done. }
  destruct missing as [|k0 rest].
  - split; [|done]. destruct (ModelLoader.masked_keys keys); by split.
  - split; [by split|]. intros _. cbn [snd]. apply last_snoc.
Qed.

Lemma api_keys_missing_witness :
  last (snd (ModelLoader.ApiKeyManager_init sample_json
               (<["API_KEYS" := "{...}"]> ∅))) =
    Some (ModelLoader.mkLog ModelLoader.ERROR "Missing required API keys"
            [("missing_keys", ModelLoader.LNames ["GROQ_API_KEY"])]).
Proof.
  assert (List.filter
            (λ k, negb (ModelLoader.available
                          (key_value (key_blob sample_json (<["API_KEYS" := "{...}"]> ∅))
                             (<["API_KEYS" := "{...}"]> ∅) k)))
            ModelLoader.REQUIRED_KEYS ≠ []) as H by (vm_compute; discriminate).
  exact (proj2 (api_keys_missing sample_json (<["API_KEYS" := "{...}"]> ∅)) H).
Defined.

(** X18. A value of [API_KEYS] that is not a JSON object does not stop the
    manager: it behaves as if the variable were not set, and takes the keys
    from the environment variables. *)
Theorem malformed_api_keys_ignored json_loads env raw :
  env !! "API_KEYS" = Some raw →
  (∀ object, json_loads raw ≠ ModelLoader.JsonObject object) →
  fst (ModelLoader.ApiKeyManager_init json_loads env) =
    fst (ModelLoader.ApiKeyManager_init json_loads (delete "API_KEYS" env)) ∧
  key_blob json_loads env = ∅.
Proof.
  intros Hraw Hbad.
  assert (key_blob json_loads env = ∅) as Hblob.
  { unfold key_blob, ModelLoader.read_blob. rewrite Hraw.
    destruct (PyLib.truthy raw); [|done].
    destruct (json_loads raw) as [object| |message] eqn:E; [|done|done].
    by destruct (Hbad object). }
  assert (key_blob json_loads (delete "API_KEYS" env) = ∅) as Hblob'.
  { unfold key_blob, ModelLoader.read_blob. by rewrite lookup_delete_eq. }
  split; [|done].
  unfold ModelLoader.ApiKeyManager_init.
  pose proof (filled_keys_lookup json_loads env) as Hkeys.
  pose proof (filled_keys_lookup json_loads (delete "API_KEYS" env)) as Hkeys'.
  destruct (foldl _ (ModelLoader.read_blob json_loads env) _) as [keys log1].
  destruct (foldl _ (ModelLoader.read_blob json_loads (delete "API_KEYS" env)) _)
    as [keys' log1'].
  cbn [fst] in Hkeys, Hkeys'.
  assert (keys = keys') as <-.
  { apply map_eq. intros k. rewrite Hkeys, Hkeys', Hblob, Hblob'.
    case_bool_decide as Hk; [|done].
    unfold key_value. rewrite !lookup_empty. cbn.
    rewrite lookup_delete_ne; [done|]. intros <-.
    repeat (apply elem_of_cons in Hk as [?|Hk]; [done|]).
    by apply elem_of_nil in Hk. }
  destruct (List.filter _ _); [|done].
  by destruct (ModelLoader.masked_keys keys).
Qed.

Lemma malformed_api_keys_ignored_witness :
  let env := <["API_KEYS" := "not json"]> (<["GOOGLE_API_KEY" := "g"]>
               (<["GROQ_API_KEY" := "q"]> ∅)) in
  let json_loads := λ _, ModelLoader.JsonDecodeError "Expecting value" in
  fst (ModelLoader.ApiKeyManager_init json_loads env) =
    fst (ModelLoader.ApiKeyManager_init json_loads (delete "API_KEYS" env)) ∧
  key_blob json_loads env = ∅.
Proof.
  intros env json_loads.
  apply (malformed_api_keys_ignored json_loads env "not json").
  - reflexivity.
  - discriminate.
Defined.






(** ** Loading the models *)

Ltac unfold_logged :=
  unfold ModelLoader.and_then, ModelLoader.lift, ModelLoader.pure, ModelLoader.fail,
    ModelLoader.log_call.

(** X20. [load_llm] picks the block of the configuration by [LLM_PROVIDER]
    ("google" when unset) and the class by the field "provider" of that
    block; with a key manager that [__init__] has built it never fails on a
    key: it returns the Google model with the Google key, the Groq model
    with the Groq key, or raises for a provider that is neither.  The
    temperature is 0.2 and the token limit 2048 unless the block sets
    them. *)
Theorem load_llm_by_provider_field json_loads env0 mgr log0 env top block entry :
  ModelLoader.ApiKeyManager_init json_loads env0 = (inr mgr, log0) →
  top !! "llm" = Some (Config.YMap block) →
  block !! default "google" (env !! "LLM_PROVIDER") = Some (Config.YMap entry) →
  let provider := default Config.YNull (entry !! "provider") in
  let model := default Config.YNull (entry !! "model_name") in
  let temperature := default (Config.YFloat "0.2" true) (entry !! "temperature") in
  let max_tokens := default (Config.YInt 2048) (entry !! "max_output_tokens") in
  ∃ google groq,
    ModelLoader.get mgr "GOOGLE_API_KEY" = inr google ∧
    ModelLoader.get mgr "GROQ_API_KEY" = inr groq ∧
    fst (ModelLoader.load_llm (ModelLoader.mkModelLoader mgr (Config.YMap top)) env) =
      if ModelLoader.is_name provider "google"
      then inr (ModelLoader.ChatGoogleGenerativeAI model google temperature max_tokens)
      else if ModelLoader.is_name provider "groq"
      then inr (ModelLoader.ChatGroq model groq temperature max_tokens)
      else inl (ModelLoader.UnsupportedProvider provider).
Proof.
  intros Hinit Hllm Hentry provider model temperature max_tokens.
  destruct (get_after_init json_loads env0 mgr log0 "GOOGLE_API_KEY" Hinit)
    as (g & _ & Hg & _); [by repeat constructor|].
  destruct (get_after_init json_loads env0 mgr log0 "GROQ_API_KEY" Hinit)
    as (q & _ & Hq & _); [by repeat constructor|].
  exists (ModelLoader.JString g), (ModelLoader.JString q).
  split; [done|]. split; [done|].
  unfold ModelLoader.load_llm. unfold_logged.
  cbn [ModelLoader.config ModelLoader.api_key_mgr ModelLoader.getitem].
  rewrite Hllm. cbn [ModelLoader.contains_key ModelLoader.getitem]. rewrite !Hentry.
  rewrite bool_decide_eq_true_2 by (by eexists).
  cbn [negb ModelLoader.get_or].
  fold provider model temperature max_tokens.
  rewrite Hg, Hq.
  destruct (ModelLoader.is_name provider "google"); [reflexivity|].
  destruct (ModelLoader.is_name provider "groq"); reflexivity.
Qed.

Lemma load_llm_by_provider_field_witness :
  ∃ google groq,
    ModelLoader.get sample_mgr "GOOGLE_API_KEY" = inr google ∧
    ModelLoader.get sample_mgr "GROQ_API_KEY" = inr groq ∧
    fst (ModelLoader.load_llm sample_loader (<["LLM_PROVIDER" := "groq"]> ∅)) =
      inr (ModelLoader.ChatGroq (Config.YStr "llama-3") groq (Config.YInt 0)
             (Config.YInt 2048)).
Proof.
  pose proof (load_llm_by_provider_field sample_json sample_key_env sample_mgr
                (snd (ModelLoader.ApiKeyManager_init sample_json sample_key_env))
                (<["LLM_PROVIDER" := "groq"]> ∅) sample_config_entries sample_llm_block
                (<["provider" := Config.YStr "groq"]>
                   (<["model_name" := Config.YStr "llama-3"]>
                      (<["temperature" := Config.YInt 0]> ∅)))
                eq_refl eq_refl eq_refl) as H.
  exact H.
Defined.

(** X21. When the configuration has no block for the provider named by
    [LLM_PROVIDER] ("google" when the variable is unset), [load_llm] raises
    [ValueError] with the provider's name, logs one error, and reads no API
    key. *)
Theorem load_llm_unknown_provider self env top block :
  ModelLoader.config self = Config.YMap top →
  top !! "llm" = Some (Config.YMap block) →
  block !! default "google" (env !! "LLM_PROVIDER") = None →
  let provider_key := default "google" (env !! "LLM_PROVIDER") in
  ModelLoader.load_llm self env =
    (inl (ModelLoader.ValueError
            ("LLM provider '" +:+ provider_key +:+ "' not found in config")),
     [ModelLoader.mkLog ModelLoader.ERROR "LLM provider not found in config"
        [("provider", ModelLoader.LStr provider_key)]]).
Proof.
  intros Hcfg Hllm Hnone provider_key.
  unfold ModelLoader.load_llm. unfold_logged. rewrite Hcfg.
  cbn [ModelLoader.getitem]. rewrite Hllm. cbn [ModelLoader.contains_key].
  fold provider_key in Hnone |- *. rewrite Hnone.
  rewrite bool_decide_eq_false_2 by (by intros [? ?]). reflexivity.
Qed.

Lemma load_llm_unknown_provider_witness :
  ModelLoader.load_llm sample_loader (<["LLM_PROVIDER" := "openai"]> ∅) =
    (inl (ModelLoader.ValueError "LLM provider 'openai' not found in config"),
     [ModelLoader.mkLog ModelLoader.ERROR "LLM provider not found in config"
        [("provider", ModelLoader.LStr "openai")]]).
Proof.
  pose proof (load_llm_unknown_provider sample_loader (<["LLM_PROVIDER" := "openai"]> ∅)
                sample_config_entries sample_llm_block eq_refl eq_refl eq_refl) as H.
  exact H.
Defined.

(** X22. [load_embeddings] returns the embedding client for the model named
    under "embedding_model" / "model_name" with the Google key; whatever
    goes wrong on the way (a missing entry, a configuration of another
    shape, a missing key) is logged and surfaces as the one exception
    "Failed to load embedding model". *)
Theorem load_embeddings_outcome (self : ModelLoader.ModelLoader) :
  match ModelLoader.load_embeddings self with
  | (inr embeddings, log) =>
      ∃ block,
        ModelLoader.getitem (ModelLoader.config self) "embedding_model" = inr block ∧
        ModelLoader.getitem block "model_name"
          = inr (ModelLoader.embedding_model embeddings) ∧
        ModelLoader.get (ModelLoader.api_key_mgr self) "GOOGLE_API_KEY"
          = inr (ModelLoader.embedding_api_key embeddings)
  | (inl e, log) =>
      e = ModelLoader.ProductAssistantException "Failed to load embedding model" ∧
      ∃ cause,
        last log = Some (ModelLoader.mkLog ModelLoader.ERROR "Error loading embedding model"
                           [("error", ModelLoader.LError cause)]) ∧
        (ModelLoader.getitem (ModelLoader.config self) "embedding_model" = inl cause ∨
         (∃ block,
            ModelLoader.getitem (ModelLoader.config self) "embedding_model" = inr block ∧
            ModelLoader.getitem block "model_name" = inl cause) ∨
         ModelLoader.get (ModelLoader.api_key_mgr self) "GOOGLE_API_KEY" = inl cause)
  end.
Proof.
  unfold ModelLoader.load_embeddings, ModelLoader.load_embeddings_try. unfold_logged.
  destruct (ModelLoader.getitem (ModelLoader.config self) "embedding_model")
    as [e|block] eqn:Hblock.
  { split; [done|]. exists e. split; [done|]. by left. }
  destruct (ModelLoader.getitem block "model_name") as [e|model] eqn:Hmodel.
  { split; [done|]. exists e. split; [done|]. right. left. by exists block. }
  destruct (ModelLoader.get (ModelLoader.api_key_mgr self) "GOOGLE_API_KEY")
    as [e|key] eqn:Hkey.
  { split; [done|]. exists e. split; [done|]. by right; right. }
  by exists block.
Qed.

(** ** The configuration file *)

(** X23. [load_config] takes the path from its argument, else from
    [CONFIG_PATH] when that is set and not empty, else the default under
    the project root; a relative path is taken under the project root; a
    path that does not exist raises [FileNotFoundError] before anything is
    read; and a document that is empty or false is returned as the empty
    dict, so the result is never a false value of another kind. *)
Theorem load_config_outcome (fs : Config.FileSystem) (env : PyLib.Env)
    (config_path : option string) :
  let chosen :=
    match config_path with
    | Some p => p
    | None =>
        match env !! "CONFIG_PATH" with
        | Some p => if PyLib.truthy p then p else Config.default_path fs
        | None => Config.default_path fs
        end
    end in
  let path := if Config.is_absolute fs chosen then chosen
              else Config.under_root fs chosen in
  match Config.load_config fs env config_path with
  | inr document =>
      Config.path_exists fs path = true ∧
      ∃ loaded, Config.safe_load fs path = inr loaded ∧
                if Config.truth loaded then document = loaded
                else document = Config.YMap ∅
  | inl e =>
      if Config.path_exists fs path then Config.safe_load fs path = inl e
      else e = Config.FileNotFoundError path
  end.
Proof.
  intros chosen path. unfold Config.load_config. fold chosen. fold path.
  destruct (Config.path_exists fs path); cbn [negb]; [|done].
  destruct (Config.safe_load fs path) as [e|loaded]; [done|].
  split; [done|]. exists loaded. split; [done|]. by destruct (Config.truth loaded).
Qed.

(** ** The class [Retriever] *)

Lemma ensure_vstore_cached connects (self : RetrieverClass.Retriever) store :
  RetrieverClass.vstore self = Some store →
  RetrieverClass.ensure_vstore connects self = (inr store, self, []).
Proof. intros H. unfold RetrieverClass.ensure_vstore. by rewrite H. Qed.

Lemma ensure_vstore_inv connects (self self' : RetrieverClass.Retriever) r effects :
  RetrieverClass.ensure_vstore connects self = (r, self', effects) →
  RetrieverClass.retriever self' = RetrieverClass.retriever self ∧
  RetrieverClass.config self' = RetrieverClass.config self ∧
  (∀ line, RetrieverClass.Print line ∉ effects) ∧
  match r with
  | inr store => RetrieverClass.vstore self' = Some store
  | inl _ => self' = self
  end.
Proof.
  unfold RetrieverClass.ensure_vstore.
  assert (∀ log line, RetrieverClass.Print line ∉ map RetrieverClass.Log log) as Hlog.
  { intros log line [record [? _]]%list_elem_of_fmap. done. }
  destruct (RetrieverClass.vstore self) as [store|] eqn:Hvs.
  { intros [= <- <- <-]. repeat split; try done. by intros line ?%elem_of_nil. }
  destruct (ModelLoader.getitem _ "astra_db") as [e|block].
  { intros [= <- <- <-]. repeat split; try done. by intros line ?%elem_of_nil. }
  destruct (ModelLoader.getitem block _) as [e|name].
  { intros [= <- <- <-]. repeat split; try done. by intros line ?%elem_of_nil. }
  destruct (ModelLoader.load_embeddings _) as [[e|embeddings] log].
  { intros [= <- <- <-]. repeat split; try done. }
  assert (∀ store line,
            RetrieverClass.Print line ∉
              map RetrieverClass.Log log ++ [RetrieverClass.Connect store]) as Hnew.
  { intros store line [?|Hin]%elem_of_app; [by eapply Hlog|].
    by apply list_elem_of_singleton in Hin. }
  destruct (connects _); intros [= <- <- <-]; repeat split; done.
Qed.

(** X24. [load_retriever] connects to the vector store once.  After a call
    that returned, a further call finds the store it has kept: whatever the
    state of the database, it makes no connection, loads no embedding
    model, logs nothing, and returns a retriever over the same store with
    the same number of results.  What it returns is never [None]: the
    attribute [retriever] stays unset. *)
Theorem load_retriever_connects_once connects connects'
    (self self' : RetrieverClass.Retriever) result effects :
  RetrieverClass.retriever self = None →
  RetrieverClass.load_retriever connects self = (inr result, self', effects) →
  ∃ store top_k,
    result = Some (RetrieverClass.as_retriever store top_k) ∧
    RetrieverClass.vstore self' = Some store ∧
    RetrieverClass.retriever self' = None ∧
    RetrieverClass.load_retriever connects' self' =
      (inr (Some (RetrieverClass.as_retriever store top_k)), self',
       [RetrieverClass.Print "Retriever loaded successfully."]).
Proof.
  intros Hnone. unfold RetrieverClass.load_retriever at 1.
  destruct (RetrieverClass.ensure_vstore connects self) as [[[e|store] self1] eff1] eqn:E;
    [done|].
  apply ensure_vstore_inv in E as (Hret & Hcfg & _ & Hvs).
  rewrite Hret, Hnone.
  destruct (RetrieverClass.top_k (RetrieverClass.config self1)) as [e|k] eqn:Hk; [done|].
  intros [= <- <- <-]. exists store, k. split; [done|]. split; [done|].
  split; [congruence|].
  unfold RetrieverClass.load_retriever.
  rewrite (ensure_vstore_cached connects' self1 store Hvs).
  rewrite Hret, Hnone, Hk. reflexivity.
Qed.

Lemma load_retriever_connects_once_witness :
  let self' := snd (fst (RetrieverClass.load_retriever (λ _, true) sample_retriever)) in
  ∃ store top_k,
    Some (RetrieverClass.as_retriever sample_store (Config.YInt 5))
      = Some (RetrieverClass.as_retriever store top_k) ∧
    RetrieverClass.vstore self' = Some store ∧
    RetrieverClass.retriever self' = None ∧
    RetrieverClass.load_retriever (λ _, false) self' =
      (inr (Some (RetrieverClass.as_retriever store top_k)), self',
       [RetrieverClass.Print "Retriever loaded successfully."]).
Proof.
  intros self'.
  exact (load_retriever_connects_once (λ _, true) (λ _, false) sample_retriever self'
           (Some (RetrieverClass.as_retriever sample_store (Config.YInt 5)))
           (snd (RetrieverClass.load_retriever (λ _, true) sample_retriever))
           eq_refl eq_refl).
Defined.

(** X25. [load_retriever] prints "Retriever loaded successfully." exactly
    when it returns a retriever, and then as its last effect; when it
    raises (a configuration entry is missing, the embedding model cannot be
    loaded, the connection fails) it prints nothing.  The number of results
    is the entry "retriever" / "top_k" of the configuration, and 3 when the
    configuration has no entry "retriever". *)
Theorem load_retriever_banner connects (self : RetrieverClass.Retriever) :
  RetrieverClass.retriever self = None →
  match RetrieverClass.load_retriever connects self with
  | (inr result, self', effects) =>
      ∃ store top_k before,
        result = Some (RetrieverClass.as_retriever store top_k) ∧
        RetrieverClass.top_k (RetrieverClass.config self) = inr top_k ∧
        effects = before ++ [RetrieverClass.Print "Retriever loaded successfully."] ∧
        (∀ line, RetrieverClass.Print line ∉ before) ∧
        (ModelLoader.contains_key "retriever" (RetrieverClass.config self) = inr false →
         top_k = Config.YInt 3)
  | (inl e, self', effects) => ∀ line, RetrieverClass.Print line ∉ effects
  end.
Proof.
  intros Hnone. unfold RetrieverClass.load_retriever.
  destruct (RetrieverClass.ensure_vstore connects self) as [[[e|store] self1] eff1] eqn:E.
  { by apply ensure_vstore_inv in E as (_ & _ & Hprint & _). }
  apply ensure_vstore_inv in E as (Hret & Hcfg & Hprint & Hvs).
  rewrite Hret, Hnone, Hcfg.
  destruct (RetrieverClass.top_k (RetrieverClass.config self)) as [e|k] eqn:Hk; [done|].
  exists store, k, eff1. repeat split; try done.
  intros Hno. unfold RetrieverClass.top_k in Hk. rewrite Hno in Hk. congruence.
Qed.

Lemma load_retriever_banner_witness :
  RetrieverClass.retriever sample_retriever = None ∧
  ∃ store top_k before,
    Some (RetrieverClass.as_retriever sample_store (Config.YInt 5))
      = Some (RetrieverClass.as_retriever store top_k) ∧
    RetrieverClass.top_k (RetrieverClass.config sample_retriever) = inr top_k ∧
    snd (RetrieverClass.load_retriever (λ _, true) sample_retriever)
      = before ++ [RetrieverClass.Print "Retriever loaded successfully."] ∧
    (∀ line, RetrieverClass.Print line ∉ before) ∧
    (ModelLoader.contains_key "retriever" (RetrieverClass.config sample_retriever)
       = inr false → top_k = Config.YInt 3).
Proof.
  split; [reflexivity|].
  exact (load_retriever_banner (λ _, true) sample_retriever eq_refl).
Defined.

Lemma model_loader_init_inv fs json_loads (dotenv env env1 : PyLib.Env) loader log :
  ModelLoader.ModelLoader_init fs json_loads dotenv env = (inr loader, env1, log) →
  env1 = (if ModelLoader.local_mode env then PyLib.load_dotenv dotenv env else env) ∧
  (∃ log2, ModelLoader.ApiKeyManager_init json_loads env1
             = (inr (ModelLoader.api_key_mgr loader), log2)) ∧
  Config.load_config fs env1 None = inr (ModelLoader.config loader) ∧
  ∃ entries, ModelLoader.config loader = Config.YMap entries.
Proof.
  unfold ModelLoader.ModelLoader_init.
  set (env0 := if ModelLoader.local_mode env then PyLib.load_dotenv dotenv env else env).
  assert ((if ModelLoader.local_mode env
           then (PyLib.load_dotenv dotenv env,
                 [ModelLoader.mkLog ModelLoader.INFO "Running in LOCAL mode: .env loaded" []])
           else (env, [ModelLoader.mkLog ModelLoader.INFO "Running in PRODUCTION mode" []]))
          = (env0, if ModelLoader.local_mode env
                   then [ModelLoader.mkLog ModelLoader.INFO
                           "Running in LOCAL mode: .env loaded" []]
                   else [ModelLoader.mkLog ModelLoader.INFO
                           "Running in PRODUCTION mode" []])) as ->.
  { unfold env0. by destruct (ModelLoader.local_mode env). }
  destruct (ModelLoader.ApiKeyManager_init json_loads env0) as [[e|mgr] log2] eqn:Hinit;
    [by intros [=]|].
  destruct (Config.load_config fs env0 None) as [e|config] eqn:Hcfg; [by intros [=]|].
  destruct config; intros [= <- <- <-]. cbn.
  split; [done|]. split; [by exists log2|]. split; [done|]. by eexists.
Qed.

(** X12. A [Retriever] that [__init__] has built has no vector store and no
    retriever yet; its model loader holds a non-empty value for both API
    keys, the Groq key included; and its four database credentials are set,
    none of them [None]. *)
Theorem retriever_init_requires fs json_loads (dotenv env env' : PyLib.Env) self log :
  RetrieverClass.Retriever_init fs json_loads dotenv env = (inr self, env', log) →
  RetrieverClass.vstore self = None ∧
  RetrieverClass.retriever self = None ∧
  (∀ key, key ∈ ModelLoader.REQUIRED_KEYS →
     ∃ s, s ≠ "" ∧
          ModelLoader.get (ModelLoader.api_key_mgr (RetrieverClass.model_loader self)) key
            = inr (ModelLoader.JString s)) ∧
  is_Some (Retrieval.google_api_key (RetrieverClass.credentials self)) ∧
  is_Some (Retrieval.db_api_endpoint (RetrieverClass.credentials self)) ∧
  is_Some (Retrieval.db_application_token (RetrieverClass.credentials self)) ∧
  is_Some (Retrieval.db_keyspace (RetrieverClass.credentials self)).
Proof.
  unfold RetrieverClass.Retriever_init.
  destruct (ModelLoader.ModelLoader_init fs json_loads dotenv env)
    as [[[e|loader] env1] log1] eqn:Hloader; [by intros [=]|].
  apply model_loader_init_inv in Hloader as (_ & [log2 Hinit] & _ & _).
  destruct (Config.load_config fs env1 None) as [e|config]; [by intros [=]|].
  destruct (Retrieval._load_env_variables dotenv env1) as [[e|c] env2] eqn:Henv;
    [by intros [=]|].
  intros [= <- <- <-]. cbn.
  apply retrieval_env_success in Henv as (H1 & H2 & H3 & H4 & _).
  repeat split; try done.
  intros key Hkey.
  destruct (get_after_init json_loads env1 _ log2 key Hinit Hkey) as (s & Hs & Hget & _).
  by exists s.
Qed.

Lemma retriever_init_requires_witness :
  RetrieverClass.vstore sample_retriever = None ∧
  RetrieverClass.retriever sample_retriever = None ∧
  (∀ key, key ∈ ModelLoader.REQUIRED_KEYS →
     ∃ s, s ≠ "" ∧
          ModelLoader.get
            (ModelLoader.api_key_mgr (RetrieverClass.model_loader sample_retriever)) key
            = inr (ModelLoader.JString s)) ∧
  is_Some (Retrieval.google_api_key (RetrieverClass.credentials sample_retriever)) ∧
  is_Some (Retrieval.db_api_endpoint (RetrieverClass.credentials sample_retriever)) ∧
  is_Some (Retrieval.db_application_token (RetrieverClass.credentials sample_retriever)) ∧
  is_Some (Retrieval.db_keyspace (RetrieverClass.credentials sample_retriever)).
Proof.
  exact (retriever_init_requires sample_fs sample_json ∅ sample_full_env sample_full_env
           sample_retriever
           (snd (RetrieverClass.Retriever_init sample_fs sample_json ∅ sample_full_env))
           eq_refl).
Defined.

(** ** The scraper: collecting reviews *)

Lemma collect_inv (count : Z) (blocks : list string) :
  ∀ (seen : gset string) (reviews : list string),
    (1 ≤ count)%Z →
    (∀ x, x ∈ seen ↔ x ∈ reviews) →
    NoDup reviews →
    (Z.of_nat (length reviews) < count)%Z →
    ∃ extra,
      Scraper.collect count blocks seen reviews = reviews ++ extra ∧
      NoDup (reviews ++ extra) ∧
      Forall (λ r, r ≠ "") extra ∧
      sublist extra blocks ∧
      (Z.of_nat (length (reviews ++ extra)) ≤ count)%Z ∧
      ((Z.of_nat (length (reviews ++ extra)) < count)%Z →
       ∀ b, b ∈ blocks → b ≠ "" → b ∈ reviews ++ extra).
Proof.
  induction blocks as [|text rest IH]; intros seen reviews Hcount Hseen Hnodup Hlen.
  - exists []. rewrite app_nil_r. cbn. repeat split; try done; try lia.
    intros _ b Hb. by apply elem_of_nil in Hb.
  - cbn [Scraper.collect].
    destruct (PyLib.truthy text && negb (bool_decide (text ∈ seen))) eqn:Hnew.
    + apply andb_true_iff in Hnew as [Htruthy Hfresh%negb_true_iff%bool_decide_eq_false].
      apply truthy_nonempty in Htruthy.
      assert (NoDup (reviews ++ [text])) as Hnodup'.
      { apply NoDup_app. split; [done|]. split; [|apply NoDup_singleton].
        intros x Hx ->%list_elem_of_singleton. by apply Hfresh, Hseen. }
      destruct (Z.leb_spec count (Z.of_nat (length (reviews ++ [text])))) as [Hfull|Hroom].
      * exists [text]. split; [done|]. split; [done|].
        split; [by repeat constructor|].
        split; [by apply sublist_skip, sublist_nil_l|].
        rewrite length_app in Hfull |- *. cbn in Hfull |- *.
        split; [lia|]. intros ?. lia.
      * destruct (IH ({[text]} ∪ seen) (reviews ++ [text]) Hcount) as
          (extra & -> & Hnd & Hne & Hsub & Hle & Hall); [|done|done|].
        { intros x. rewrite elem_of_union, elem_of_singleton, elem_of_app,
            list_elem_of_singleton, Hseen. tauto. }
        exists (text :: extra). rewrite <- app_assoc in *. cbn [app] in *.
        split; [done|]. split; [done|]. split; [by constructor|].
        split; [by apply sublist_skip|]. split; [done|].
        intros Hlt b [->|Hb]%elem_of_cons Hb'.
        -- apply elem_of_app. right. by left.
        -- by apply Hall.
    + destruct (Z.leb_spec count (Z.of_nat (length reviews))) as [Hfull|_]; [lia|].
      destruct (IH seen reviews Hcount Hseen Hnodup Hlen) as
        (extra & -> & Hnd & Hne & Hsub & Hle & Hall).
      exists extra. split; [done|]. split; [done|]. split; [done|].
      split; [by apply sublist_cons|]. split; [done|].
      intros Hlt b [->|Hb]%elem_of_cons Hb'; [|by apply Hall].
      apply andb_false_iff in Hnew as [Hempty|Hseen'].
      * destruct text; [by destruct Hb' | discriminate Hempty].
      * apply negb_false_iff, bool_decide_eq_true in Hseen'.
        apply elem_of_app. left. by apply Hseen.
Qed.

(** X26. The review loop of [get_top_reviews], for a count of at least 1,
    keeps the first [count] distinct non-empty block texts in page order:
    the result has no duplicate and no empty text, is a subsequence of the
    block texts, has at most [count] entries, and when it has fewer, no
    non-empty block text was left out.  For a count of 0 or less the loop
    stops after the first block and still returns that block's text when it
    is not empty. *)
Theorem collect_reviews (count : Z) (blocks : list string) :
  let reviews := Scraper.collect count blocks ∅ [] in
  ((1 ≤ count)%Z →
   NoDup reviews ∧
   Forall (λ r, r ≠ "") reviews ∧
   sublist reviews blocks ∧
   (Z.of_nat (length reviews) ≤ count)%Z ∧
   ((Z.of_nat (length reviews) < count)%Z →
    ∀ b, b ∈ blocks → b ≠ "" → b ∈ reviews)) ∧
  ((count ≤ 0)%Z →
   reviews = match blocks with
             | b :: _ => if PyLib.truthy b then [b] else []
             | [] => []
             end).
Proof.
  intros reviews. split.
  - intros Hcount.
    destruct (collect_inv count blocks ∅ [] Hcount) as (extra & Heq & H);
      [set_solver | constructor | cbn; lia |].
    unfold reviews. rewrite Heq. cbn [app] in *. exact H.
  - intros Hcount. unfold reviews. destruct blocks as [|b rest]; [done|].
    cbn [Scraper.collect]. rewrite bool_decide_eq_false_2 by set_solver.
    destruct (PyLib.truthy b); cbn.
    + destruct (Z.leb_spec count (Z.of_nat 1)); [done|lia].
    + destruct (Z.leb_spec count (Z.of_nat 0)); [done|lia].
Qed.

Lemma collect_reviews_witness :
  let reviews := Scraper.collect 2 ["Great"; ""; "Great"; "Slow"; "Fine"] ∅ [] in
  NoDup reviews ∧
  Forall (λ r, r ≠ "") reviews ∧
  sublist reviews ["Great"; ""; "Great"; "Slow"; "Fine"] ∧
  (Z.of_nat (length reviews) ≤ 2)%Z ∧
  ((Z.of_nat (length reviews) < 2)%Z →
   ∀ b, b ∈ ["Great"; ""; "Great"; "Slow"; "Fine"] → b ≠ "" → b ∈ reviews).
Proof.
  apply (proj1 (collect_reviews 2 ["Great"; ""; "Great"; "Slow"; "Fine"])). lia.
Defined.

Example collect_sample :
  Scraper.collect 2 ["Great"; ""; "Great"; "Slow"; "Fine"] ∅ [] = ["Great"; "Slow"] ∧
  Scraper.collect 0 ["Great"; "Slow"] ∅ [] = ["Great"].
Proof. split; reflexivity. Qed.

(** ** The scraper: browsers *)

(** X27. Once the browser has started, [get_top_reviews] does not raise.
    For a URL that starts with "http" it loads the page and quits the
    browser exactly once, as its last effect, whatever fails on the page in
    between, where it prints at most the popup error.  For any other URL it
    returns "No reviews found" at once, and the browser it has started is not
    quit. *)
Theorem get_top_reviews_lifecycle browser history (product_url : string) (count : Z) :
  Scraper.chrome_starts browser history = true →
  if PyStr.startswith "http" product_url
  then ∃ text middle,
         Scraper.get_top_reviews browser history product_url count =
           (inr text,
            Scraper.ChromeStart :: Scraper.Get product_url :: middle ++ [Scraper.Quit]) ∧
         Forall is_print middle
  else Scraper.get_top_reviews browser history product_url count =
         (inr "No reviews found", [Scraper.ChromeStart]).
Proof.
  intros Hstart. unfold Scraper.get_top_reviews. rewrite Hstart. cbn [negb].
  destruct (PyStr.startswith "http" product_url); cbn [negb]; [|done].
  destruct (Scraper.visit browser _ product_url) as [|popup_error blocks].
  - exists "No reviews found", []. by split.
  - eexists _, (match popup_error with
                | Some e => [Scraper.Print (Scraper.popup_message e)]
                | None => []
                end).
    split; [done|]. destruct popup_error; by repeat constructor.
Qed.

Lemma get_top_reviews_lifecycle_witness :
  ∃ text middle,
    Scraper.get_top_reviews sample_browser [] "https://www.flipkart.com/x/p/itm1" 2 =
      (inr text,
       Scraper.ChromeStart :: Scraper.Get "https://www.flipkart.com/x/p/itm1" ::
         middle ++ [Scraper.Quit]) ∧
    Forall is_print middle.
Proof.
  exact (get_top_reviews_lifecycle sample_browser [] "https://www.flipkart.com/x/p/itm1" 2
           eq_refl).
Defined.

Lemma count_starts_app (a b : list Scraper.Effect) :
  count_starts (a ++ b) = count_starts a + count_starts b.
Proof. unfold count_starts. by rewrite List.filter_app, length_app. Qed.

Lemma count_quits_app (a b : list Scraper.Effect) :
  count_quits (a ++ b) = count_quits a + count_quits b.
Proof. unfold count_quits. by rewrite List.filter_app, length_app. Qed.

Lemma prints_count (middle : list Scraper.Effect) :
  Forall is_print middle → count_starts middle = 0 ∧ count_quits middle = 0.
Proof.
  induction 1 as [|e middle He _ IH]; [done|].
  destruct e; done.
Qed.

Lemma product_link_http (href : string) :
  PyStr.startswith "http" (Scraper.product_link href) = true.
Proof.
  unfold Scraper.product_link.
  destruct (PyStr.startswith "http" href) eqn:E; [done|reflexivity].
Qed.

Lemma get_top_reviews_balanced browser history href count text new :
  Scraper.get_top_reviews browser history (Scraper.product_link href) count
    = (inr text, new) →
  count_starts new = 1 ∧ count_quits new = 1.
Proof.
  unfold Scraper.get_top_reviews.
  destruct (Scraper.chrome_starts browser history); cbn [negb]; [|done].
  rewrite product_link_http. cbn [negb].
  destruct (Scraper.visit browser _ _) as [|popup_error blocks].
  - by intros [= _ <-].
  - intros [= _ <-]. by destruct popup_error.
Qed.

Lemma scrape_items_balanced browser review_count (items : list Scraper.Item) :
  ∀ history effects products rows effects',
    Scraper.scrape_items browser review_count items history effects products
      = (inr rows, effects') →
    Forall (λ row, length row = 6) products →
    count_starts effects' + count_quits effects
      = count_quits effects' + count_starts effects ∧
    Forall (λ row, length row = 6) rows ∧
    length rows ≤ length products + length items.
Proof.
  induction items as [|item items IH]; intros history effects products rows effects'.
  - intros [= <- <-] Hrows. cbn. split; [lia|]. split; [done|lia].
  - cbn [Scraper.scrape_items]. destruct item as [message|title price rating text href].
    + intros Hrun Hrows.
      destruct (IH _ _ _ _ _ Hrun Hrows) as (Hbal & H6 & Hlen).
      rewrite count_starts_app, count_quits_app in Hbal. cbn in Hbal |- *.
      split; [lia|]. split; [done|lia].
    + destruct (PyStr.contains "flipkart.com" (Scraper.product_link href)).
      * destruct (Scraper.get_top_reviews _ _ _ _) as [[e|top] new] eqn:Hget; [done|].
        intros Hrun Hrows.
        apply get_top_reviews_balanced in Hget as [Hs Hq].
        destruct (IH _ _ _ _ _ Hrun) as (Hbal & H6 & Hlen).
        { apply Forall_app. split; [done|]. by repeat constructor. }
        rewrite count_starts_app, count_quits_app, length_app in *. cbn in Hlen |- *.
        split; [lia|]. split; [done|lia].
      * intros Hrun Hrows.
        destruct (IH _ _ _ _ _ Hrun) as (Hbal & H6 & Hlen).
        { apply Forall_app. split; [done|]. by repeat constructor. }
        rewrite length_app in Hlen. cbn in Hlen |- *.
        split; [lia|]. split; [done|lia].
Qed.

Lemma contains_char_cons (c x : ascii) (s : string) :
  PyStr.contains (String c "") (String x s) =
    Ascii.eqb c x || PyStr.contains (String c "") s.
Proof. cbn. by destruct (Ascii.eqb c x). Qed.

Lemma contains_char_app (c : ascii) (a b : string) :
  PyStr.contains (String c "") (a +:+ b) =
    PyStr.contains (String c "") a || PyStr.contains (String c "") b.
Proof.
  induction a as [|x a IH].
  - change ("" +:+ b) with b. by destruct b.
  - change (String x a +:+ b) with (String x (a +:+ b)).
    rewrite !contains_char_cons, IH. by rewrite orb_assoc.
Qed.

Lemma replace_char_gone (old new : ascii) (s : string) :
  old ≠ new →
  PyStr.contains (String old "") (PyLib.replace_char old new s) = false.
Proof.
  intros Hne. induction s as [|c s IH]; [done|].
  cbn [PyLib.replace_char]. rewrite contains_char_cons, IH, orb_false_r.
  destruct (Ascii.eqb_spec c old) as [->|Hc].
  - by apply Ascii.eqb_neq.
  - apply Ascii.eqb_neq. congruence.
Qed.

Lemma slice_to_length {A} (l : list A) (stop : Z) :
  length (Scraper.slice_to l stop) ≤ length l ∧
  ((0 ≤ stop)%Z → length (Scraper.slice_to l stop) ≤ Z.to_nat stop).
Proof.
  unfold Scraper.slice_to. destruct (Z.leb_spec 0 stop).
  - rewrite length_take. split; lia.
  - rewrite length_take. split; lia.
Qed.

(** X28. When [scrape_flipkart_products] returns, every browser it has
    started has been quit, the one of the search page and the one of each
    product page: a product link always starts with "http", so the early
    return of [get_top_reviews] that leaves a browser open is not taken.
    There is at most one row per search result, at most [max_products] of
    them when that is not negative, each with six fields; and the search
    URL holds no space. *)
Theorem scrape_closes_browsers browser history (query : string)
    (max_products review_count : Z) rows effects :
  Scraper.scrape_flipkart_products browser history query max_products review_count
    = (inr rows, effects) →
  count_starts effects = count_quits effects ∧
  Forall (λ row, length row = 6) rows ∧
  ((0 ≤ max_products)%Z → length rows ≤ Z.to_nat max_products) ∧
  PyStr.contains " " (Scraper.search_url query) = false.
Proof.
  unfold Scraper.scrape_flipkart_products.
  destruct (Scraper.chrome_starts browser history); cbn [negb]; [|done].
  destruct (Scraper.search browser _ _) as [|popup_error [items|]]; [done| |done].
  destruct (Scraper.scrape_items _ _ _ _ _ _) as [[e|rows'] effects'] eqn:Hitems; [done|].
  intros [= <- <-].
  apply scrape_items_balanced in Hitems as (Hbal & H6 & Hlen); [|done].
  rewrite count_starts_app, count_quits_app in Hbal.
  rewrite count_starts_app, count_quits_app.
  assert (count_starts (match popup_error with
                        | Some e => [Scraper.Print (Scraper.popup_message e)]
                        | None => []
                        end) = 0 ∧
          count_quits (match popup_error with
                       | Some e => [Scraper.Print (Scraper.popup_message e)]
                       | None => []
                       end) = 0) as [Hs Hq] by (by destruct popup_error).
  rewrite Hs, Hq in Hbal. cbn in Hbal |- *.
  split; [exact Hbal|]. split; [done|]. split.
  - intros Hmax. pose proof (slice_to_length items max_products) as [_ H].
    specialize (H Hmax). cbn [length] in Hlen. lia.
  - unfold Scraper.search_url. rewrite contains_char_app.
    rewrite replace_char_gone by done. reflexivity.
Qed.

Lemma scrape_closes_browsers_witness :
  let r := Scraper.scrape_flipkart_products sample_browser [] "budget phone" 5 2 in
  count_starts (snd r) = count_quits (snd r) ∧
  Forall (λ row, length row = 6)
    [["itmABC123"; "Phone A"; "4.5"; "56"; "999"; "Great || Slow"]] ∧
  ((0 ≤ 5)%Z →
   length [["itmABC123"; "Phone A"; "4.5"; "56"; "999"; "Great || Slow"]] ≤ Z.to_nat 5) ∧
  PyStr.contains " " (Scraper.search_url "budget phone") = false.
Proof.
  intros r.
  exact (scrape_closes_browsers sample_browser [] "budget phone" 5 2
           [["itmABC123"; "Phone A"; "4.5"; "56"; "999"; "Great || Slow"]] (snd r)
           eq_refl).
Defined.

(** ** The scraper: the two regular expressions *)

Lemma span_spec (p : ascii → bool) (s run rest : string) :
  Scraper.span p s = (run, rest) → s = run +:+ rest ∧ all_chars p run = true.
Proof.
  revert run rest. induction s as [|c s IH]; intros run rest.
  - by intros [= <- <-].
  - cbn [Scraper.span]. destruct (p c) eqn:Hc.
    + destruct (Scraper.span p s) as [run' rest'].
      intros [= <- <-]. destruct (IH _ _ eq_refl) as [-> Hall].
      split; [done|]. cbn [all_chars]. by rewrite Hc, Hall.
    + by intros [= <- <-].
Qed.

Lemma before_reviews_spec (s : string) :
  Scraper.before_reviews s = true →
  ∃ spaces post, s = spaces +:+ "Reviews" +:+ post ∧ run_of PyStr.is_space spaces.
Proof.
  unfold Scraper.before_reviews.
  destruct (Scraper.span PyStr.is_space s) as [spaces rest] eqn:Hspan.
  apply span_spec in Hspan as [-> Hall].
  intros [Hne Hstarts]%andb_true_iff.
  apply startswith_occurs in Hstarts as [post ->].
  exists spaces, post. split; [done|]. split; [|done]. by apply truthy_nonempty.
Qed.

Lemma count_at_spec (s m : string) :
  Scraper.count_at s = Some m →
  ∃ spaces post,
    s = m +:+ spaces +:+ "Reviews" +:+ post ∧ run_of PyStr.is_space spaces ∧ count_text m.
Proof.
  unfold Scraper.count_at.
  destruct (Scraper.span Scraper.is_digit s) as [digits rest] eqn:Hspan.
  apply span_spec in Hspan as [-> Hdigits].
  destruct (PyLib.truthy digits) eqn:Hne; [|done].
  apply truthy_nonempty in Hne.
  assert (Scraper.before_reviews rest = true →
          ∃ spaces post,
            digits +:+ rest = digits +:+ spaces +:+ "Reviews" +:+ post ∧
            run_of PyStr.is_space spaces ∧ count_text digits) as Hplain.
  { intros (spaces & post & -> & Hspaces)%before_reviews_spec.
    exists spaces, post. split; [done|]. split; [done|]. by left. }
  destruct rest as [|c rest'].
  { destruct (Scraper.before_reviews "") eqn:Hb; [|done]. intros [= <-]. by apply Hplain. }
  destruct (Ascii.eqb_spec c ",") as [->|Hc].
  - destruct (Scraper.span Scraper.is_digit rest') as [more rest''] eqn:Hmore.
    apply span_spec in Hmore as [-> Hall].
    destruct (PyLib.truthy more) eqn:Hne'; [|done]. apply truthy_nonempty in Hne'.
    destruct (Scraper.before_reviews rest'') eqn:Hb; [|done]. cbn [andb].
    intros [= <-]. apply before_reviews_spec in Hb as (spaces & post & -> & Hspaces).
    exists spaces, post. split; [|split; [done|]].
    + rewrite !append_assoc. reflexivity.
    + right. by exists digits, more.
  - assert ((if Scraper.before_reviews (String c rest') then Some digits else None)
              = Some m → digits = m ∧ Scraper.before_reviews (String c rest') = true)
      as Hif by (destruct (Scraper.before_reviews _); [by intros [= <-] | done]).
    destruct c as [[] [] [] [] [] [] [] []];
      try (intros [<- Hb]%Hif; by apply Hplain).
    by destruct Hc.
Qed.

Lemma product_id_at_spec (s id : string) :
  Scraper.product_id_at s = Some id →
  ∃ run post, s = "/p/" +:+ id +:+ post ∧ id = "itm" +:+ run ∧ run_of Scraper.is_alnum run.
Proof.
  unfold Scraper.product_id_at.
  do 6 (destruct s as [|c s]; [done|];
        destruct c as [[] [] [] [] [] [] [] []]; try done).
  destruct (Scraper.span Scraper.is_alnum s) as [run post] eqn:Hspan.
  apply span_spec in Hspan as [-> Hall].
  destruct (PyLib.truthy run) eqn:Hne; [|done]. apply truthy_nonempty in Hne.
  intros [= <-]. exists run, post. split; [|done].
  cbn. reflexivity.
Qed.

(** X29. What the two regular expressions of [scrape_flipkart_products] find.
    A review count it reports stands in the text of the result right before
    at least one whitespace character and the word "Reviews", and is a run of
    digits or two runs of digits joined by one comma.  A product id it reports
    stands in the link right after "/p/", and is "itm" followed by at least
    one letter or digit. *)
Theorem scraped_fields_sound (reviews_text href : string) :
  (∀ m, Scraper.search_count reviews_text = Some m →
        count_text m ∧
        ∃ pre spaces post,
          reviews_text = pre +:+ m +:+ spaces +:+ "Reviews" +:+ post ∧
          run_of PyStr.is_space spaces) ∧
  (∀ id, Scraper.first_product_id href = Some id →
         ∃ pre run post,
           href = pre +:+ "/p/" +:+ id +:+ post ∧ id = "itm" +:+ run ∧
           run_of Scraper.is_alnum run).
Proof.
  split.
  - intros m. induction reviews_text as [|c s IH]; cbn [Scraper.search_count].
    + destruct (Scraper.count_at "") as [m'|] eqn:Hat; [|done].
      intros [= ->]. apply count_at_spec in Hat as (spaces & post & Heq & Hsp & Hm).
      split; [done|]. by exists "", spaces, post.
    + destruct (Scraper.count_at (String c s)) as [m'|] eqn:Hat.
      * intros [= ->]. apply count_at_spec in Hat as (spaces & post & Heq & Hsp & Hm).
        split; [done|]. by exists "", spaces, post.
      * intros (Hm & pre & spaces & post & -> & Hsp)%IH.
        split; [done|]. by exists (String c pre), spaces, post.
  - intros id. induction href as [|c s IH]; cbn [Scraper.first_product_id].
    + destruct (Scraper.product_id_at "") as [id'|] eqn:Hat; [|done].
      intros [= ->]. apply product_id_at_spec in Hat as (run & post & Heq & Hid & Hrun).
      by exists "", run, post.
    + destruct (Scraper.product_id_at (String c s)) as [id'|] eqn:Hat.
      * intros [= ->]. apply product_id_at_spec in Hat as (run & post & Heq & Hid & Hrun).
        by exists "", run, post.
      * intros (pre & run & post & -> & Hid & Hrun)%IH.
        by exists (String c pre), run, post.
Qed.

Lemma scraped_fields_sound_witness :
  (count_text "56" ∧
   ∃ pre spaces post,
     "1,234 Ratings & 56 Reviews" = pre +:+ "56" +:+ spaces +:+ "Reviews" +:+ post ∧
     run_of PyStr.is_space spaces) ∧
  (∃ pre run post,
     "/phone-a/p/itmABC123?pid=1" = pre +:+ "/p/" +:+ "itmABC123" +:+ post ∧
     "itmABC123" = "itm" +:+ run ∧ run_of Scraper.is_alnum run).
Proof.
  destruct (scraped_fields_sound "1,234 Ratings & 56 Reviews" "/phone-a/p/itmABC123?pid=1")
    as [Hcount Hid].
  split; [exact (Hcount "56" eq_refl) | exact (Hid "itmABC123" eq_refl)].
Defined.

(** ** The scraper: the output file *)

Lemma head_to_last_slash_truthy (p : string) :
  PyLib.truthy (Scraper.head_to_last_slash p) = PyStr.contains "/" p.
Proof.
  induction p as [|c p IH]; [done|].
  rewrite contains_char_cons, <- IH. cbn [Scraper.head_to_last_slash].
  destruct (Scraper.head_to_last_slash p).
  - rewrite orb_false_r. destruct (Ascii.eqb_spec c "/") as [->|Hc]; [done|].
    symmetry. apply Ascii.eqb_neq. congruence.
  - cbn. by rewrite orb_true_r.
Qed.

Lemma rstrip_slashes_truthy (s : string) :
  PyLib.truthy (Scraper.rstrip_slashes s) = negb (Scraper.all_slashes s).
Proof.
  induction s as [|c s IH]; [done|].
  cbn [Scraper.rstrip_slashes Scraper.all_slashes].
  destruct (Scraper.rstrip_slashes s); cbn in IH.
  - apply (f_equal negb) in IH. rewrite negb_involutive in IH. rewrite <- IH.
    rewrite andb_true_r. by destruct (Ascii.eqb c "/").
  - apply (f_equal negb) in IH. rewrite negb_involutive in IH. rewrite <- IH.
    by rewrite andb_false_r.
Qed.

Lemma dirname_truthy (p : string) :
  PyLib.truthy (Scraper.dirname p) = PyStr.contains "/" p.
Proof.
  rewrite <- head_to_last_slash_truthy. unfold Scraper.dirname.
  destruct (PyLib.truthy (Scraper.head_to_last_slash p)) eqn:Hhead; cbn [andb].
  - destruct (Scraper.all_slashes (Scraper.head_to_last_slash p)) eqn:Hall; cbn [negb].
    + done.
    + by rewrite rstrip_slashes_truthy, Hall.
  - done.
Qed.

Lemma startswith_char_contains (c : ascii) (s : string) :
  PyStr.contains (String c "") s = false → PyStr.startswith (String c "") s = false.
Proof.
  destruct s as [|a s]; [done|]. rewrite contains_char_cons.
  cbn [PyStr.startswith]. by destruct (Ascii.eqb c a).
Qed.

(** X30. Where [save_to_csv] writes.  A file name with a "/" in it is used
    as it is, relative to the working directory and not to [output_dir], and
    its directory is made first unless the name is absolute.  A file name
    without "/" goes into [output_dir], which is not made here.  Under the
    header come the rows as given, and the header row has the columns the
    ingestion requires of the file. *)
Theorem save_to_csv_target (output_dir filename : string) (data : list (list string)) :
  let slash := PyStr.contains "/" filename in
  Scraper.save_to_csv output_dir data filename =
    (if slash && negb (Scraper.isabs filename)
     then [Scraper.MakeDirs (Scraper.dirname filename)] else []) ++
    [Scraper.WriteRows (if slash then filename else Scraper.path_join output_dir filename)
       (Scraper.csv_header :: data)] ∧
  (slash = false →
   ∃ sep, (sep = "" ∨ sep = "/") ∧
          Scraper.path_join output_dir filename = output_dir +:+ sep +:+ filename) ∧
  ∀ rows, Ingestion._load_csv (Ingestion.mkDataFrame Scraper.csv_header rows)
          = inr (Ingestion.mkDataFrame Scraper.csv_header rows).
Proof.
  intros slash. split; [|split].
  - unfold Scraper.save_to_csv. rewrite dirname_truthy. fold slash.
    destruct (Scraper.isabs filename) eqn:Habs.
    + assert (slash = true) as ->; [|done].
      destruct slash eqn:Hslash; [done|].
      apply startswith_char_contains in Hslash. unfold Scraper.isabs in Habs. congruence.
    + by destruct slash.
  - intros Hslash. unfold Scraper.path_join.
    rewrite (startswith_char_contains "/" filename Hslash).
    destruct (negb (PyLib.truthy output_dir) || Scraper.endswith_slash output_dir).
    + exists "". split; [by left|done].
    + exists "/". split; [by right|done].
  - intros rows. reflexivity.
Qed.

Lemma save_to_csv_target_witness :
  Scraper.save_to_csv "data" [["itm1"; "Phone"; "4.5"; "56"; "999"; "Great"]] "out.csv" =
    [Scraper.WriteRows "data/out.csv"
       [Scraper.csv_header; ["itm1"; "Phone"; "4.5"; "56"; "999"; "Great"]]] ∧
  ∃ sep, (sep = "" ∨ sep = "/") ∧
         Scraper.path_join "data" "out.csv" = "data" +:+ sep +:+ "out.csv".
Proof.
  destruct (save_to_csv_target "data" "out.csv"
              [["itm1"; "Phone"; "4.5"; "56"; "999"; "Great"]]) as (Heq & Hjoin & _).
  split; [exact Heq | exact (Hjoin eq_refl)].
Defined.
